(** * pdf-json-csv.py: batch extraction of PDF metadata into a CSV table

    A shallow embedding of [process_pdf] and [main] of [pdf-json-csv.py].

    The program talks to a remote service (the OpenAI client), the file
    system, the wall clock and a CSV writer.  The remote service, the file
    system and the over-sleeping of [time.sleep] are an arbitrary
    deterministic state machine (class [Service]); the program itself is
    written in a small state-and-exception monad that records every
    outward call as an event.

    Time is an integer clock of "time-units" that never goes backwards:
    every call takes a non-negative time chosen by the service, and
    [time.sleep d] takes at least [d]. *)

From Stdlib Require Import ZArith List String Ascii Bool Lia Arith.
From Stdlib Require Import DecimalString RelationClasses.
Import ListNotations.

Set Warnings "-register-all".

Local Open Scope string_scope.
Local Open Scope Z_scope.

(** ** Python values

    The values that flow through the program are the ones [json.loads]
    builds and the strings the program makes itself.  A [dict] keeps
    insertion order, as Python's does.  A float is carried as the text
    [repr] gives for it. *)

Inductive pyval : Type :=
| PNone
| PBool (b : bool)
| PInt (z : Z)
| PFloat (shown : string)
| PStr (s : string)
| PList (items : list pyval)
| PDict (entries : list (string * pyval)).

Definition dict : Type := list (string * pyval).

Module Dict.

Fixpoint get (k : string) (d : dict) : option pyval :=
    match d with
    | [] => None
    | (k', v) :: rest => if String.eqb k k' then Some v else get k rest
    end.

  (** [k in d] *)
Definition contains (k : string) (d : dict) : bool :=
    match get k d with Some _ => true | None => false end.

  (** [d[k] = v]: an existing key keeps its position. *)
Fixpoint set (k : string) (v : pyval) (d : dict) : dict :=
    match d with
    | [] => [(k, v)]
    | (k', v') :: rest =>
        if String.eqb k k' then (k', v) :: rest else (k', v') :: set k v rest
    end.

  (** [d.update(other)] *)
Definition update (d other : dict) : dict :=
    fold_left (fun acc kv => set (fst kv) (snd kv) acc) other d.

Definition keys (d : dict) : list string := map fst d.

  (** [d.get(k, default)] *)
Definition get_default (k : string) (default : pyval) (d : dict) : pyval :=
    match get k d with Some v => v | None => default end.

End Dict.

(** ** [str] and [repr]

    [repr] of a string follows CPython on ASCII text: double quotes when
    the text holds a single quote and no double quote, single quotes
    otherwise; the quote character and the backslash are escaped, as are
    tab, newline, carriage return and the other control characters.
    Bytes above 0x7f are copied (printable non-ASCII text). *)

Definition str_of_Z (z : Z) : string := NilZero.string_of_int (Z.to_int z).

Fixpoint str_join (sep : string) (parts : list string) : string :=
  match parts with
  | [] => ""
  | [p] => p
  | p :: rest => p ++ sep ++ str_join sep rest
  end.

Fixpoint str_has (c : ascii) (s : string) : bool :=
  match s with
  | EmptyString => false
  | String c' rest => if Ascii.eqb c c' then true else str_has c rest
  end.

Definition hex_digit (n : N) : ascii :=
  if (n <? 10)%N then ascii_of_N (48 + n) else ascii_of_N (87 + n).

Definition squote : ascii := "'"%char.
Definition dquote : ascii := ascii_of_N 34.
Definition backslash : ascii := "\"%char.

Definition repr_char (quote c : ascii) : string :=
  let n := N_of_ascii c in
  if Ascii.eqb c quote then String backslash (String c EmptyString)
  else if Ascii.eqb c backslash then String backslash (String backslash EmptyString)
  else if (n =? 9)%N then String backslash "t"
  else if (n =? 10)%N then String backslash "n"
  else if (n =? 13)%N then String backslash "r"
  else if ((n <? 32) || (n =? 127))%N
       then String backslash
              (String "x" (String (hex_digit (n / 16)) (String (hex_digit (n mod 16)) EmptyString)))
  else String c EmptyString.

Fixpoint repr_chars (quote : ascii) (s : string) : string :=
  match s with
  | EmptyString => EmptyString
  | String c rest => repr_char quote c ++ repr_chars quote rest
  end.

Definition repr_str (s : string) : string :=
  let quote := if str_has squote s && negb (str_has dquote s) then dquote else squote in
  String quote (repr_chars quote s ++ String quote EmptyString).

Fixpoint py_repr (v : pyval) : string :=
  match v with
  | PNone => "None"
  | PBool true => "True"
  | PBool false => "False"
  | PInt z => str_of_Z z
  | PFloat shown => shown
  | PStr s => repr_str s
  | PList items => "[" ++ str_join ", " (map py_repr items) ++ "]"
  | PDict entries =>
      "{" ++ str_join ", "
               (map (fun kv => repr_str (fst kv) ++ ": " ++ py_repr (snd kv)) entries)
          ++ "}"
  end.

(** [str(v)] *)
Definition py_str (v : pyval) : string :=
  match v with
  | PStr s => s
  | _ => py_repr v
  end.

(** [s.startswith("{")] *)
Definition startswith_brace (s : string) : bool :=
  match s with
  | String c _ => Ascii.eqb c "{"%char
  | EmptyString => false
  end.

(** ** Exceptions

    Every exception the program meets is an instance of [Exception]: a
    class name and the argument it was built with.  [str(e)] of such an
    exception is [str] of that argument. *)

Record exn : Type := Exn { exn_class : string; exn_arg : pyval }.

Definition str_exn (e : exn) : string := py_str (exn_arg e).

Definition TimeoutError (msg : string) : exn := Exn "TimeoutError" (PStr msg).
Definition RuntimeError (arg : pyval) : exn := Exn "RuntimeError" arg.
Definition ValueError (msg : string) : exn := Exn "ValueError" (PStr msg).
Definition AttributeError (msg : string) : exn := Exn "AttributeError" (PStr msg).

(** ** The outside world *)

Record Path : Type := { parent : string; name : string }.

Record Run : Type := { run_id : string; status : string }.

(** A content item of a message, by the class it is an instance of.

    The messages of the client hold content blocks.  A [TextContentBlock]
    has the fields [type] and [text], its [text] being a [Text] with the
    fields [value] and [annotations]; an [ImageFileContentBlock] has [type]
    and [image_file].  Neither class derives from [Text].  [Text] is the
    class the program imports and tests for: it has [value] and
    [annotations], and no attribute [text].  [TextWithText] stands for an
    instance of a class derived from [Text] that has an attribute [text]
    with a [value]: the test of the program is written for such an item,
    and the client yields none. *)
Inductive content_item : Type :=
| TextContentBlock (value : string)
| ImageFileContentBlock (file_id : string)
| Text (value : string)
| TextWithText (value : string).

(** [isinstance(item, Text)] *)
Definition isinstance_Text (item : content_item) : bool :=
  match item with
  | TextContentBlock _ => false
  | ImageFileContentBlock _ => false
  | Text _ => true
  | TextWithText _ => true
  end.

(** [item.text.value]: the value, or the [AttributeError] that reading the
    attribute [text] raises. *)
Definition text_value (item : content_item) : exn + string :=
  match item with
  | TextContentBlock value => inr value
  | ImageFileContentBlock _ =>
      inl (AttributeError "'ImageFileContentBlock' object has no attribute 'text'")
  | Text _ => inl (AttributeError "'Text' object has no attribute 'text'")
  | TextWithText value => inr value
  end.


Record Message : Type := { content : list content_item }.

Inductive level : Type := INFO | WARNING | ERROR.

(** Every outward call the program makes, in program order. *)
Inductive event : Type :=
| EvAssistantCreate
| EvAssistantDelete (assistant_id : string)
| EvOpenOutput (file_name : string)
| EvWriteHeader (columns : list string)
| EvWriteRow (cells : list string)
| EvFlush
| EvClose
| EvGlob
| EvOpen (p : Path)
| EvUpload (p : Path)
| EvDelete (file_id : string)
| EvThreadCreate (file_ids : list string)
| EvRunCreate (thread_id assistant_id : string)
| EvRetrieve (thread_id run_id : string)
| EvMessagesList (thread_id : string)
| EvSleep (seconds : Z)
| EvLog (lvl : level) (msg : string).

(** What a call answers: a value or a raised exception, the time the call
    took, and the next state of the world. *)
Record reply (S A : Type) : Type :=
  Reply { res : exn + A; took : N; next : S }.

Arguments Reply {S A}.
Arguments res {S A}.
Arguments took {S A}.
Arguments next {S A}.

(** The remote service and the file system, as the program uses them.
    The first argument of every operation is the clock when it is called. *)
Class Service (S : Type) : Type := {
  assistants_create : Z -> S -> reply S string;
  assistants_delete : Z -> string -> S -> reply S unit;
  open_output : Z -> string -> S -> reply S unit;
  glob_pdf : Z -> S -> reply S (list Path);
  open_rb : Z -> Path -> S -> reply S unit;
  files_create : Z -> Path -> S -> reply S string;
  files_delete : Z -> string -> S -> reply S unit;
  threads_create : Z -> string -> list string -> S -> reply S string;
  runs_create : Z -> string -> string -> S -> reply S Run;
  runs_retrieve : Z -> string -> string -> S -> reply S Run;
  messages_list : Z -> string -> S -> reply S (list Message);
  (** how much longer than asked [time.sleep] sleeps *)
  oversleep : Z -> Z -> S -> N * S
}.

(** ** Configuration *)

Definition OUTPUT_CSV : string := "extracted_data.csv".

(** [FUNCTION_SCHEMA["parameters"]["properties"].keys()] *)
Definition schema_fields : list string :=
  ["title"; "author"; "date"; "keywords"; "summary"; "page_count"].

Definition PROMPT : string :=
"
Extract the following structured data from the PDF document:
- Title
- Author(s)
- Publication date
- Key keywords/topics
- Brief summary
- Page count

Return ONLY structured data using the extract_data function.
".

Definition fieldnames : list string := ["filename"] ++ schema_fields ++ ["error"].

(** ** The monad: state, exceptions, events *)

Inductive outcome (A : Type) : Type :=
| Normal (a : A)
| Raised (e : exn)
| OutOfFuel.

Arguments Normal {A}.
Arguments Raised {A}.
Arguments OutOfFuel {A}.

(** The machine state: the world, the clock, and the two local variables
    that outlive a raised exception, [file] of [process_pdf] (absent until
    assigned) and [row] of [main]. *)
Record State (S : Type) : Type :=
  MkState { svc : S; now : Z; file : option string; row : dict }.

Arguments MkState {S}.
Arguments svc {S}.
Arguments now {S}.
Arguments file {S}.
Arguments row {S}.

Record Result (S A : Type) : Type :=
  MkResult { out : outcome A; st : State S; evs : list event }.

Arguments MkResult {S A}.
Arguments out {S A}.
Arguments st {S A}.
Arguments evs {S A}.

Definition M (S A : Type) : Type := State S -> Result S A.

Section Monad.

Context {S : Type}.

Definition ret {A} (a : A) : M S A := fun w => MkResult (Normal a) w [].

Definition raise {A} (e : exn) : M S A := fun w => MkResult (Raised e) w [].

Definition out_of_fuel {A} : M S A := fun w => MkResult OutOfFuel w [].

Definition bind {A B} (m : M S A) (k : A -> M S B) : M S B :=
    fun w =>
      let r := m w in
      match out r with
      | Normal a => let r' := k a (st r) in MkResult (out r') (st r') (evs r ++ evs r')
      | Raised e => MkResult (Raised e) (st r) (evs r)
      | OutOfFuel => MkResult OutOfFuel (st r) (evs r)
      end.

  (** [try: m  except Exception as e: h e] *)
Definition try_except {A} (m : M S A) (h : exn -> M S A) : M S A :=
    fun w =>
      let r := m w in
      match out r with
      | Raised e => let r' := h e (st r) in MkResult (out r') (st r') (evs r ++ evs r')
      | _ => r
      end.

  (** [try: m  finally: fin]; an exception of [fin] replaces the outcome. *)
Definition try_finally {A} (m : M S A) (fin : M S unit) : M S A :=
    fun w =>
      let r := m w in
      match out r with
      | OutOfFuel => r
      | o =>
          let r' := fin (st r) in
          match out r' with
          | Normal _ => MkResult o (st r') (evs r ++ evs r')
          | Raised e => MkResult (Raised e) (st r') (evs r ++ evs r')
          | OutOfFuel => MkResult OutOfFuel (st r') (evs r ++ evs r')
          end
      end.

Definition emit (e : event) : M S unit := fun w => MkResult (Normal tt) w [e].

Definition logging (lvl : level) (msg : string) : M S unit := emit (EvLog lvl msg).

  (** A call to the outside: the event, then the answer; the clock moves on
      by the time the call took. *)
Definition call {A} (e : event) (op : Z -> S -> reply S A) : M S A :=
    fun w =>
      let r := op (now w) (svc w) in
      MkResult (match res r with inl x => Raised x | inr a => Normal a end)
               (MkState (next r) (now w + Z.of_N (took r)) (file w) (row w))
               [e].

Definition time_time : M S Z := fun w => MkResult (Normal (now w)) w [].

Definition get_file : M S (option string) := fun w => MkResult (Normal (file w)) w [].

Definition set_file (f : option string) : M S unit :=
    fun w => MkResult (Normal tt) (MkState (svc w) (now w) f (row w)) [].

Definition get_row : M S dict := fun w => MkResult (Normal (row w)) w [].

Definition set_row (d : dict) : M S unit :=
    fun w => MkResult (Normal tt) (MkState (svc w) (now w) (file w) d) [].

End Monad.

Notation "x <- m ;; k" := (bind m (fun x => k))
  (at level 61, m at next level, right associativity).
Notation "m ;; k" := (bind m (fun _ => k))
  (at level 61, right associativity).

(** ** The program *)

Section Program.

Context {S : Type} {service : Service S}.

  (** [json.loads]: the record a text decodes to, or the exception raised. *)
Variable json_loads : string -> exn + dict.

  (** [time.sleep(seconds)] *)
Definition time_sleep (seconds : Z) : M S unit :=
    fun w =>
      let r := oversleep (now w) seconds (svc w) in
      MkResult (Normal tt)
               (MkState (snd r) (now w + seconds + Z.of_N (fst r)) (file w) (row w))
               [EvSleep seconds].

  (** [status not in ["completed", "failed", "cancelled", "expired"]] is
      [negb (terminal status)]. *)
Definition terminal (status : string) : bool :=
    existsb (String.eqb status) ["completed"; "failed"; "cancelled"; "expired"].

  (** The [while] loop of [process_pdf]; one unit of fuel per test of its
      condition. *)
Fixpoint poll (fuel : nat) (thread_id : string) (start_time : Z) (run : Run) : M S Run :=
    match fuel with
    | O => out_of_fuel
    | Datatypes.S fuel' =>
        if terminal (status run) then ret run
        else
          t <- time_time ;;
          if t - start_time >? 300
          then raise (TimeoutError "Processing timed out")
          else
            time_sleep 5 ;;
            run' <- call (EvRetrieve thread_id (run_id run))
                         (fun t => runs_retrieve t thread_id (run_id run)) ;;
            poll fuel' thread_id start_time run'
    end.

  (** How the two nested [for] loops over the messages and their items
      end: at an item that passes the test, with its text; at an item on
      which the test raises, with the exception; or at the end of the
      messages. *)
Inductive scan : Type :=
| Payload (value : string)
| Fault (e : exn)
| Nothing.

  (** The test [isinstance(tool_call, Text) and
      tool_call.text.value.startswith("{")] on one item; [and] evaluates
      its right side only when the left one holds. *)
Definition look (item : content_item) : scan :=
    if isinstance_Text item then
      match text_value item with
      | inr value => if startswith_brace value then Payload value else Nothing
      | inl e => Fault e
      end
    else Nothing.

Fixpoint first_payload_in (items : list content_item) : scan :=
    match items with
    | [] => Nothing
    | item :: rest =>
        match look item with
        | Nothing => first_payload_in rest
        | found => found
        end
    end.

Fixpoint first_payload (messages : list Message) : scan :=
    match messages with
    | [] => Nothing
    | m :: rest =>
        match first_payload_in (content m) with
        | Nothing => first_payload rest
        | found => found
        end
    end.

  (** The four stages of the [try] block of [process_pdf]. *)

  (** Upload PDF file: [open], [client.files.create], the log line. *)
Definition upload_file (pdf_path : Path) : M S string :=
    call (EvOpen pdf_path) (fun t => open_rb t pdf_path) ;;
    f <- call (EvUpload pdf_path) (fun t => files_create t pdf_path) ;;
    set_file (Some f) ;;
    logging INFO ("Uploaded: " ++ name pdf_path ++ " (ID: " ++ f ++ ")") ;;
    ret f.

  (** Create thread with file attachment, start processing. *)
Definition start_run (f assistant_id : string) : M S (string * Run) :=
    thread <- call (EvThreadCreate [f]) (fun t => threads_create t PROMPT [f]) ;;
    run <- call (EvRunCreate thread assistant_id)
                (fun t => runs_create t thread assistant_id) ;;
    ret (thread, run).

  (** Wait for completion with timeout. *)
Definition wait_run (fuel : nat) (thread_id : string) (run : Run) : M S Run :=
    start_time <- time_time ;;
    poll fuel thread_id start_time run.

  (** Handle failed runs, get function call arguments. *)
Definition read_result (thread_id : string) (run : Run) : M S dict :=
    (if negb (String.eqb (status run) "completed")
     then raise (RuntimeError (PStr ("Processing failed with status: " ++ status run)))
     else ret tt) ;;
    messages <- call (EvMessagesList thread_id) (fun t => messages_list t thread_id) ;;
    match first_payload messages with
    | Payload value =>
        match json_loads value with
        | inr record => ret record
        | inl e => raise e
        end
    | Fault e => raise e
    | Nothing => raise (ValueError "No structured data found in response")
    end.

  (** The [try] block up to the start of the [while] loop. *)
Definition submit_run (pdf_path : Path) (assistant_id : string) : M S (string * Run) :=
  f <- upload_file pdf_path ;;
  start_run f assistant_id.

(** The [try] block up to the end of the [while] loop. *)
Definition run_to_terminal (fuel : nat) (pdf_path : Path) (assistant_id : string)
  : M S (string * Run) :=
  tr <- submit_run pdf_path assistant_id ;;
  run <- wait_run fuel (fst tr) (snd tr) ;;
  ret (fst tr, run).

(** The [try] block of [process_pdf]. *)
Definition process_pdf_try (fuel : nat) (pdf_path : Path) (assistant_id : string) : M S dict :=
    tr <- run_to_terminal fuel pdf_path assistant_id ;;
    read_result (fst tr) (snd tr).

  (** The [except Exception as e] clause of [process_pdf]. *)
Definition process_pdf_except (pdf_path : Path) (e : exn) : M S dict :=
    logging ERROR ("Error processing " ++ name pdf_path ++ ": " ++ str_exn e) ;;
    ret [("error", PStr (str_exn e))].

  (** The [finally] clause of [process_pdf]. *)
Definition process_pdf_finally : M S unit :=
    f <- get_file ;;
    match f with
    | Some file_id =>
        try_except
          (call (EvDelete file_id) (fun t => files_delete t file_id))
          (fun e => logging WARNING ("File deletion failed: " ++ str_exn e))
    | None => ret tt
    end.

  (** [process_pdf(pdf_path, assistant_id)]; on entry [file] is not among
      the locals. *)
Definition process_pdf_guarded (fuel : nat) (pdf_path : Path) (assistant_id : string)
    : M S dict :=
    try_except (process_pdf_try fuel pdf_path assistant_id) (process_pdf_except pdf_path).

Definition process_pdf (fuel : nat) (pdf_path : Path) (assistant_id : string) : M S dict :=
    set_file None ;;
    try_finally (process_pdf_guarded fuel pdf_path assistant_id) process_pdf_finally.

  (** How the [csv] writer shows a field: [None] as the empty text, a string
      as it is, anything else through [str]. *)
Definition csv_cell (v : pyval) : string :=
    match v with
    | PNone => ""
    | _ => py_str v
    end.

Definition str_in (k : string) (l : list string) : bool := existsb (String.eqb k) l.

  (** [writer.writerow(rowdict)] of a [csv.DictWriter] built with the
      defaults [restval=""] and [extrasaction="raise"].  Python lists the
      keys outside the header in the order of a set, which is fixed for one
      key only; here they come in the order of the row. *)
Definition writerow (rowdict : dict) : M S unit :=
    match filter (fun k => negb (str_in k fieldnames)) (Dict.keys rowdict) with
    | [] =>
        emit (EvWriteRow (map (fun k => csv_cell (Dict.get_default k (PStr "") rowdict))
                              fieldnames))
    | wrong_fields =>
        raise (ValueError ("dict contains fields not in fieldnames: "
                             ++ str_join ", " (map repr_str wrong_fields)))
    end.

Definition row_setitem (k : string) (v : pyval) : M S unit :=
    r <- get_row ;; set_row (Dict.set k v r).

Inductive loop_exit : Type := Break | Continue.

  (** The lines of the inner [try] after the call of [process_pdf]. *)
Definition accept_result (result : dict) : M S loop_exit :=
  (if Dict.contains "error" result
   then raise (RuntimeError (Dict.get_default "error" PNone result))
   else ret tt) ;;
  r <- get_row ;;
  set_row (Dict.update r result) ;;
  row_setitem "error" (PStr "") ;;
  ret Break.

(** One turn of [for attempt in range(3)]: the inner [try] with its
    [except] clause. *)
Definition attempt_turn (fuel : nat) (pdf : Path) (assistant_id : string) (attempt : Z)
  : M S loop_exit :=
  try_except
    (result <- process_pdf fuel pdf assistant_id ;;
     accept_result result)
    (fun e =>
       if attempt =? 2 then raise e
       else time_sleep (2 ^ attempt) ;; ret Continue).

Fixpoint for_attempt (fuel : nat) (pdf : Path) (assistant_id : string) (attempts : list Z)
    : M S unit :=
    match attempts with
    | [] => ret tt
    | attempt :: rest =>
        e <- attempt_turn fuel pdf assistant_id attempt ;;
        match e with
        | Break => ret tt
        | Continue => for_attempt fuel pdf assistant_id rest
        end
    end.

Definition range3 : list Z := [0; 1; 2].

  (** The outer [try] of the loop body of [main], with its [except]. *)
Definition retry_section (fuel : nat) (pdf : Path) (assistant_id : string) : M S unit :=
    try_except
      (for_attempt fuel pdf assistant_id range3)
      (fun e =>
         row_setitem "error" (PStr (str_exn e)) ;;
         logging ERROR ("Final failure for " ++ name pdf ++ ": " ++ str_exn e)).

  (** The body of [for pdf in pdf_files]. *)
Definition process_document (fuel : nat) (assistant_id : string) (pdf : Path) : M S unit :=
    logging INFO ("Processing: " ++ name pdf) ;;
    set_row [("filename", PStr (name pdf))] ;;
    retry_section fuel pdf assistant_id ;;
    r <- get_row ;;
    writerow r ;;
    emit EvFlush.

Fixpoint for_pdf (fuel : nat) (assistant_id : string) (pdf_files : list Path) : M S unit :=
    match pdf_files with
    | [] => ret tt
    | pdf :: rest =>
        process_document fuel assistant_id pdf ;;
        for_pdf fuel assistant_id rest
    end.

  (** [main()] *)
Definition main (fuel : nat) : M S unit :=
    assistant <- call EvAssistantCreate assistants_create ;;
    logging INFO ("Created assistant: " ++ assistant) ;;
    call (EvOpenOutput OUTPUT_CSV) (fun t => open_output t OUTPUT_CSV) ;;
    emit (EvWriteHeader fieldnames) ;;
    pdf_files <- call EvGlob glob_pdf ;;
    (match pdf_files with
     | [] => logging WARNING "No PDF files found in input directory"
     | _ => ret tt
     end) ;;
    for_pdf fuel assistant pdf_files ;;
    emit EvClose ;;
    call (EvAssistantDelete assistant) (fun t => assistants_delete t assistant) ;;
    logging INFO "Processing completed. Assistant deleted.".

  (** The data rows of the output table, in the order written. *)
Fixpoint table (events : list event) : list (list string) :=
    match events with
    | [] => []
    | EvWriteRow cells :: rest => cells :: table rest
    | _ :: rest => table rest
    end.

End Program.

(** ** A JSON decoder for the scenarios

    The theorems below hold for every behaviour of [json.loads].  The closed
    scenarios need one: this decoder reads objects, arrays, strings with the
    one-letter escapes, integers and the three literals, which is what the
    scenarios use, and refuses everything else.  A repeated key keeps its
    first position and its last value, as a Python dict does. *)

Module JSON.

Definition is_ws (c : ascii) : bool :=
    let n := N_of_ascii c in
    ((n =? 32) || (n =? 9) || (n =? 10) || (n =? 13))%N.

Fixpoint skip_ws (s : string) : string :=
    match s with
    | String c rest => if is_ws c then skip_ws rest else s
    | EmptyString => s
    end.

Definition is_digit (c : ascii) : bool :=
    let n := N_of_ascii c in ((48 <=? n) && (n <=? 57))%N.

Definition unescape (c : ascii) : option ascii :=
    let n := N_of_ascii c in
    if (n =? 34)%N then Some c                      (* quote *)
    else if (n =? 92)%N then Some c                 (* backslash *)
    else if (n =? 47)%N then Some c                 (* slash *)
    else if (n =? 98)%N then Some (ascii_of_N 8)    (* b *)
    else if (n =? 102)%N then Some (ascii_of_N 12)  (* f *)
    else if (n =? 110)%N then Some (ascii_of_N 10)  (* n *)
    else if (n =? 114)%N then Some (ascii_of_N 13)  (* r *)
    else if (n =? 116)%N then Some (ascii_of_N 9)   (* t *)
    else None.

  (** The text after an opening quote, up to the closing one. *)
Fixpoint string_body (s : string) : option (string * string) :=
    match s with
    | EmptyString => None
    | String c rest =>
        if Ascii.eqb c dquote then Some (EmptyString, rest)
        else if Ascii.eqb c backslash then
          match rest with
          | String e rest' =>
              match unescape e, string_body rest' with
              | Some c', Some (body, tail) => Some (String c' body, tail)
              | _, _ => None
              end
          | EmptyString => None
          end
        else if (N_of_ascii c <? 32)%N then None
        else
          match string_body rest with
          | Some (body, tail) => Some (String c body, tail)
          | None => None
          end
    end.

Fixpoint digits (acc : Z) (s : string) : Z * string :=
    match s with
    | String c rest =>
        if is_digit c then digits (10 * acc + Z.of_N (N_of_ascii c - 48)) rest
        else (acc, s)
    | EmptyString => (acc, s)
    end.

  (** An integer: no leading zero, no fraction, no exponent. *)
Definition natural (s : string) : option (Z * string) :=
    match s with
    | String c rest =>
        if is_digit c then
          let '(z, tail) := digits 0 s in
          let leading_zero :=
            Ascii.eqb c "0"%char
            && match rest with String c' _ => is_digit c' | EmptyString => false end in
          let continues :=
            match tail with
            | String c' _ => Ascii.eqb c' "."%char || Ascii.eqb c' "e"%char || Ascii.eqb c' "E"%char
            | EmptyString => false
            end in
          if leading_zero || continues then None else Some (z, tail)
        else None
    | EmptyString => None
    end.

Fixpoint strip_prefix (p s : string) : option string :=
    match p, s with
    | EmptyString, _ => Some s
    | String a p', String b s' => if Ascii.eqb a b then strip_prefix p' s' else None
    | _, EmptyString => None
    end.

Fixpoint value (fuel : nat) (s : string) : option (pyval * string) :=
    match fuel with
    | O => None
    | Datatypes.S fuel' =>
        match skip_ws s with
        | EmptyString => None
        | String c rest as s' =>
            if Ascii.eqb c "{"%char then
              match skip_ws rest with
              | String c' rest' =>
                  if Ascii.eqb c' "}"%char then Some (PDict [], rest')
                  else members fuel' [] rest
              | EmptyString => None
              end
            else if Ascii.eqb c "["%char then
              match skip_ws rest with
              | String c' rest' =>
                  if Ascii.eqb c' "]"%char then Some (PList [], rest')
                  else elements fuel' [] rest
              | EmptyString => None
              end
            else if Ascii.eqb c dquote then
              match string_body rest with
              | Some (body, tail) => Some (PStr body, tail)
              | None => None
              end
            else if Ascii.eqb c "-"%char then
              match natural rest with
              | Some (z, tail) => Some (PInt (- z), tail)
              | None => None
              end
            else if is_digit c then
              match natural s' with
              | Some (z, tail) => Some (PInt z, tail)
              | None => None
              end
            else
              match strip_prefix "true" s', strip_prefix "false" s', strip_prefix "null" s' with
              | Some tail, _, _ => Some (PBool true, tail)
              | _, Some tail, _ => Some (PBool false, tail)
              | _, _, Some tail => Some (PNone, tail)
              | _, _, _ => None
              end
        end
    end

with members (fuel : nat) (acc : dict) (s : string) : option (pyval * string) :=
    match fuel with
    | O => None
    | Datatypes.S fuel' =>
        match skip_ws s with
        | String c rest =>
            if Ascii.eqb c dquote then
              match string_body rest with
              | Some (key, tail) =>
                  match skip_ws tail with
                  | String c1 tail1 =>
                      if Ascii.eqb c1 ":"%char then
                        match value fuel' tail1 with
                        | Some (v, tail2) =>
                            match skip_ws tail2 with
                            | String c2 tail3 =>
                                if Ascii.eqb c2 ","%char
                                then members fuel' (Dict.set key v acc) tail3
                                else if Ascii.eqb c2 "}"%char
                                then Some (PDict (Dict.set key v acc), tail3)
                                else None
                            | EmptyString => None
                            end
                        | None => None
                        end
                      else None
                  | EmptyString => None
                  end
              | None => None
              end
            else None
        | EmptyString => None
        end
    end

with elements (fuel : nat) (acc : list pyval) (s : string) : option (pyval * string) :=
    match fuel with
    | O => None
    | Datatypes.S fuel' =>
        match value fuel' s with
        | Some (v, tail) =>
            match skip_ws tail with
            | String c tail1 =>
                if Ascii.eqb c ","%char then elements fuel' (acc ++ [v]) tail1
                else if Ascii.eqb c "]"%char then Some (PList (acc ++ [v]), tail1)
                else None
            | EmptyString => None
            end
        | None => None
        end
    end.

Definition JSONDecodeError : exn := Exn "JSONDecodeError" (PStr "Expecting value").

  (** [json.loads] on a text that starts an object. *)
Definition loads (text : string) : exn + dict :=
    match value (Datatypes.S (String.length text)) text with
    | Some (PDict d, tail) =>
        match skip_ws tail with
        | EmptyString => inr d
        | _ => inl JSONDecodeError
        end
    | _ => inl JSONDecodeError
    end.

End JSON.

Definition qq (s : string) : string := String dquote (s ++ String dquote EmptyString).

Definition report_json : string :=
  "{" ++ qq "title" ++ ":" ++ qq "Annual Report" ++ "," ++ qq "author" ++ ":" ++ qq "J. Doe" ++ ","
      ++ qq "date" ++ ":" ++ qq "2023-01-01" ++ "," ++ qq "keywords" ++ ":[" ++ qq "finance" ++ ","
      ++ qq "growth" ++ "]," ++ qq "summary" ++ ":" ++ qq "..." ++ "," ++ qq "page_count" ++ ":12}".

(** ** Scripted services for the scenarios

    A scenario fixes the documents found, what the n-th upload answers,
    the status of the n-th run as a function of the time since it was
    created, the messages of the n-th thread and what deleting the n-th
    file answers (n counts the uploads made so far, from 1).  No call takes
    time and [time.sleep] sleeps exactly as long as asked. *)

Record Scenario : Type := {
  sc_docs : list Path;
  sc_upload : nat -> exn + string;
  sc_status : nat -> Z -> string;
  sc_messages : nat -> list Message;
  sc_delete : nat -> exn + unit
}.

Record Sim : Type := { uploads : nat; started : Z }.

#[global] Instance sim_service (sc : Scenario) : Service Sim := {
  assistants_create := fun _ s => Reply (inr "asst_1") 0 s;
  assistants_delete := fun _ _ s => Reply (inr tt) 0 s;
  open_output := fun _ _ s => Reply (inr tt) 0 s;
  glob_pdf := fun _ s => Reply (inr (sc_docs sc)) 0 s;
  open_rb := fun _ _ s => Reply (inr tt) 0 s;
  files_create := fun _ _ s =>
    Reply (sc_upload sc (Datatypes.S (uploads s))) 0
          {| uploads := Datatypes.S (uploads s); started := started s |};
  files_delete := fun _ _ s => Reply (sc_delete sc (uploads s)) 0 s;
  threads_create := fun _ _ _ s => Reply (inr "thread_1") 0 s;
  runs_create := fun t _ _ s =>
    Reply (inr {| run_id := "run_1"; status := sc_status sc (uploads s) 0 |}) 0
          {| uploads := uploads s; started := t |};
  runs_retrieve := fun t _ _ s =>
    Reply (inr {| run_id := "run_1"; status := sc_status sc (uploads s) (t - started s) |}) 0 s;
  messages_list := fun _ _ s => Reply (inr (sc_messages sc (uploads s))) 0 s;
  oversleep := fun _ _ s => (0%N, s)
}.

Definition sim_start : State Sim :=
  MkState {| uploads := 0; started := 0 |} 0 None [].

(** [main()] of a scenario, with [JSON.loads] for [json.loads]. *)
Definition run_main (sc : Scenario) (fuel : nat) : Result Sim unit :=
  main (service := sim_service sc) JSON.loads fuel sim_start.

Definition report_pdf : Path := {| parent := "pdfs"; name := "report.pdf" |}.

(** The service answers, to every document and on the first poll, one
    message holding [items]. *)
Definition answering_items (docs : list Path) (items : list content_item) : Scenario := {|
  sc_docs := docs;
  sc_upload := fun n => inr ("file_" ++ str_of_Z (Z.of_nat n));
  sc_status := fun _ t => if t <? 5 then "queued" else "completed";
  sc_messages := fun _ => [ {| content := items |} ];
  sc_delete := fun _ => inr tt
|}.


(** The service answers [text] to every document, on the first poll. *)
Definition answering (docs : list Path) (text : string) : Scenario :=
  answering_items docs [TextContentBlock text].

(** ** Scenarios *)

Definition a_pdf : Path := {| parent := "pdfs"; name := "a.pdf" |}.
Definition b_pdf : Path := {| parent := "pdfs"; name := "b.pdf" |}.

(** Every upload is refused. *)
Definition upload_rejected (docs : list Path) : Scenario := {|
  sc_docs := docs;
  sc_upload := fun _ => inl (Exn "APIConnectionError" (PStr "Connection error."));
  sc_status := fun _ _ => "completed";
  sc_messages := fun _ => [];
  sc_delete := fun _ => inr tt
|}.

(** Every run ends as [failed], seen at the first retrieval. *)
Definition run_fails (docs : list Path) : Scenario := {|
  sc_docs := docs;
  sc_upload := fun n => inr ("file_" ++ str_of_Z (Z.of_nat n));
  sc_status := fun _ t => if t <? 5 then "in_progress" else "failed";
  sc_messages := fun _ => [];
  sc_delete := fun _ => inr tt
|}.

(** No run ever leaves [in_progress]. *)
Definition never_done (docs : list Path) : Scenario := {|
  sc_docs := docs;
  sc_upload := fun n => inr ("file_" ++ str_of_Z (Z.of_nat n));
  sc_status := fun _ _ => "in_progress";
  sc_messages := fun _ => [];
  sc_delete := fun _ => inr tt
|}.


(** [process_pdf] of a scenario, from the start. *)
Definition run_attempt (sc : Scenario) (fuel : nat) (pdf : Path) : Result Sim dict :=
  process_pdf (service := sim_service sc) JSON.loads fuel pdf "asst_1" sim_start.

(** ** The claims, as they are stated *)




(** The row of the end-to-end success case, as the spec prints it. *)
Definition report_row_as_printed : list string :=
  ["report.pdf"; "Annual Report"; "J. Doe"; "2023-01-01"; "[finance, growth]"; "..."; "12"; ""].

(** ** Predicates on computations *)

Section Predicates.

Context {S : Type}.

  (** The computation ends (normally or by raising) from every state. *)
Definition finishes {A} (m : M S A) : Prop :=
    forall w, out (m w) <> OutOfFuel.

  (** The computation never raises. *)
Definition never_raises {A} (m : M S A) : Prop :=
    forall w e, out (m w) <> Raised e.

  (** Every event of the computation satisfies [P]. *)
Definition emits {A} (P : event -> Prop) (m : M S A) : Prop :=
    forall w, Forall P (evs (m w)).

  (** The state after is related by [R] to the state before. *)
Definition keeps {A} (R : State S -> State S -> Prop) (m : M S A) : Prop :=
    forall w, R w (st (m w)).

(** Every exception the computation raises has a text. *)
Definition raises_text {A} (m : M S A) : Prop :=
  forall w e, out (m w) = Raised e -> str_exn e <> "".

Definition same_row (w w' : State S) : Prop := row w' = row w.
Definition same_file (w w' : State S) : Prop := file w' = file w.
Definition later (w w' : State S) : Prop := now w <= now w'.

  (** The state on entry of [process_pdf]. *)
Definition fresh (w : State S) : State S := MkState (svc w) (now w) None (row w).

End Predicates.

Definition not_delete (e : event) : Prop :=
  match e with EvDelete _ => False | _ => True end.

Definition not_write_row (e : event) : Prop :=
  match e with EvWriteRow _ => False | _ => True end.

(** The file ids of the deletion calls among the events, in order. *)
Fixpoint deletions (events : list event) : list string :=
  match events with
  | [] => []
  | EvDelete file_id :: rest => file_id :: deletions rest
  | _ :: rest => deletions rest
  end.

(** The warnings logged among the events, in order. *)
Fixpoint warnings (events : list event) : list string :=
  match events with
  | [] => []
  | EvLog WARNING msg :: rest => msg :: warnings rest
  | _ :: rest => warnings rest
  end.


Definition is_open (e : event) : bool :=
  match e with EvOpen _ => true | _ => false end.

Definition is_backoff_or_poll (e : event) : Prop :=
  match e with EvSleep _ | EvRetrieve _ _ => True | _ => False end.

(** ** Rows *)

(** [result] holds the key [error]. *)
Definition failed (result : dict) : bool := Dict.contains "error" result.

(** The row after [row.update(result); row["error"] = ""]. *)
Definition success_row (r result : dict) : dict :=
  Dict.set "error" (PStr "") (Dict.update r result).

(** The row after [row["error"] = str(e)] for [e] raised with [result["error"]]. *)
Definition failure_row (r result : dict) : dict :=
  Dict.set "error" (PStr (py_str (Dict.get_default "error" PNone result))) r.

(** The cells [writerow] writes for a row without unknown keys. *)
Definition row_cells (rowdict : dict) : list string :=
  map (fun k => csv_cell (Dict.get_default k (PStr "") rowdict)) fieldnames.

(** The cells of a row written after a successful attempt: what the merged
    row holds under each column, and an empty [error]. *)
Definition success_cells (pdf : Path) (record : dict) : list string :=
  let merged := Dict.update [("filename", PStr (name pdf))] record in
  (csv_cell (Dict.get_default "filename" (PStr "") merged)
     :: map (fun k => csv_cell (Dict.get_default k (PStr "") merged)) schema_fields
     ++ [""])%list.

(** The cells of a row written after the last attempt failed. *)
Definition failure_cells (pdf : Path) (msg : string) : list string :=
  (name pdf :: map (fun _ => "") schema_fields ++ [msg])%list.

Definition not_open (e : event) : Prop :=
  match e with EvOpen _ => False | _ => True end.

(** The number of attempts started: each starts by opening the document. *)
Definition attempts_started (events : list event) : nat :=
  List.length (filter is_open events).



Section RowsWritten.

Context {S : Type} {service : Service S}.
Variable json_loads : string -> exn + dict.

(** The cells come from the result of some attempt: the record's, with an
    empty [error], or empty ones with the error's text. *)
Definition row_of_attempt (fuel : nat) (cells : list string) : Prop :=
  exists aid pdf w d,
    out (process_pdf json_loads fuel pdf aid w) = Normal d
    /\ ((failed d = false /\ cells = success_cells pdf d)
        \/ (failed d = true
            /\ cells = failure_cells pdf (py_str (Dict.get_default "error" PNone d)))).


Definition row_event_ok (fuel : nat) (e : event) : Prop :=
  match e with
  | EvWriteRow cells => row_of_attempt fuel cells
  | _ => True
  end.

End RowsWritten.

(** ** More predicates on events *)

Definition not_poll (e : event) : Prop :=
  match e with EvSleep _ | EvRetrieve _ _ => False | _ => True end.

(** The scan of the messages goes past [item]: it is no instance of
    [Text], or it is one whose [text.value] does not start with an opening
    brace. *)
Definition passed_over (item : content_item) : bool :=
  negb (isinstance_Text item)
  || match text_value item with
     | inr value => negb (startswith_brace value)
     | inl _ => false
     end.

(** ** The two ends of [main] *)

Section Ends.

Context {S : Type} {service : Service S}.

(** [main] up to the loop over the documents: create the assistant, open
    the output, write the header, list the documents. *)
Definition main_setup : M S (string * list Path) :=
  assistant <- call EvAssistantCreate assistants_create ;;
  logging INFO ("Created assistant: " ++ assistant) ;;
  call (EvOpenOutput OUTPUT_CSV) (fun t => open_output t OUTPUT_CSV) ;;
  emit (EvWriteHeader fieldnames) ;;
  pdf_files <- call EvGlob glob_pdf ;;
  (match pdf_files with
   | [] => logging WARNING "No PDF files found in input directory"
   | _ => ret tt
   end) ;;
  ret (assistant, pdf_files).

(** [main] after the loop: close the output, delete the assistant. *)
Definition main_teardown (assistant : string) : M S unit :=
  emit EvClose ;;
  call (EvAssistantDelete assistant) (fun t => assistants_delete t assistant) ;;
  logging INFO "Processing completed. Assistant deleted.".

End Ends.

(** Each row written is followed at once by a flush. *)
Fixpoint rows_flushed (events : list event) : bool :=
  match events with
  | [] => true
  | EvWriteRow _ :: rest =>
      match rest with
      | EvFlush :: _ => rows_flushed rest
      | _ => false
      end
  | _ :: rest => rows_flushed rest
  end.

(** The service is only asked about the assistant [a]. *)
Definition uses_assistant (a : string) (e : event) : Prop :=
  match e with
  | EvRunCreate _ assistant_id => assistant_id = a
  | EvAssistantDelete assistant_id => assistant_id = a
  | _ => True
  end.

(** The computation flushes after each row it writes. *)
Definition flushes {S A} (m : M S A) : Prop :=
  forall w, rows_flushed (evs (m w)) = true.

(** Every record that decodes from the first payload of an answer of the
    service is made of schema fields only. *)
Definition schema_only {S} {service : Service S} (json_loads : string -> exn + dict) : Prop :=
  forall t th s messages value record,
    res (messages_list t th s) = inr messages ->
    first_payload messages = Payload value ->
    json_loads value = inr record ->
    forallb (fun k => str_in k schema_fields) (Dict.keys record) = true.

(** The messages of the service hold content blocks, as those of the
    client do: no content item is an instance of [Text]. *)
Definition client_only {S} {service : Service S} : Prop :=
  forall t th s messages,
    res (messages_list t th s) = inr messages ->
    forallb (fun item => negb (isinstance_Text item)) (flat_map content messages) = true.


(** ** More scenarios *)

(** Every run is completed when created; the thread holds an image and a
    text, as the client delivers them. *)
Definition completed_with_blocks (docs : list Path) : Scenario := {|
  sc_docs := docs;
  sc_upload := fun n => inr ("file_" ++ str_of_Z (Z.of_nat n));
  sc_status := fun _ _ => "completed";
  sc_messages := fun _ =>
    [ {| content := [ImageFileContentBlock "file_9"; TextContentBlock report_json] |} ];
  sc_delete := fun _ => inr tt
|}.

(** A thread where a [Text] comes after an image block and a text block
    that holds a record, and before another item. *)
Definition mixed_messages : list Message :=
  [ {| content := [ImageFileContentBlock "file_9"; TextContentBlock report_json] |};
    {| content := [Text report_json; TextWithText report_json] |} ].

(** A service whose setup fails: the assistant cannot be created, or it
    can and the output file cannot be opened. *)
#[global] Instance refusing_service (create_ok : bool) : Service unit := {
  assistants_create := fun _ s =>
    Reply (if create_ok then inr "asst_1"
           else inl (Exn "AuthenticationError" (PStr "Incorrect API key provided"))) 0 s;
  assistants_delete := fun _ _ s => Reply (inr tt) 0 s;
  open_output := fun _ _ s =>
    Reply (inl (Exn "PermissionError" (PStr "[Errno 13] Permission denied"))) 0 s;
  glob_pdf := fun _ s => Reply (inr []) 0 s;
  open_rb := fun _ _ s => Reply (inr tt) 0 s;
  files_create := fun _ _ s => Reply (inr "file_1") 0 s;
  files_delete := fun _ _ s => Reply (inr tt) 0 s;
  threads_create := fun _ _ _ s => Reply (inr "thread_1") 0 s;
  runs_create := fun _ _ _ s => Reply (inr {| run_id := "run_1"; status := "completed" |}) 0 s;
  runs_retrieve := fun _ _ _ s =>
    Reply (inr {| run_id := "run_1"; status := "completed" |}) 0 s;
  messages_list := fun _ _ s => Reply (inr []) 0 s;
  oversleep := fun _ _ s => (0%N, s)
}.

Definition refusing_start : State unit := MkState tt 0 None [].

(** * Properties *)

#[local] Arguments Z.add : simpl never.
#[local] Arguments Z.sub : simpl never.
#[local] Arguments Z.mul : simpl never.
#[local] Arguments Z.opp : simpl never.
#[local] Arguments Z.pow : simpl never.
#[local] Arguments Z.gtb : simpl never.
#[local] Arguments Z.eqb : simpl never.
#[local] Arguments Z.of_nat : simpl never.
#[local] Arguments Z.of_N : simpl never.

(** ** Laws of the monad *)

Section Laws.

Context {S : Type}.

Lemma finishes_ret {A} (a : A) : finishes (S := S) (ret a).
  Proof. intros w; discriminate. Qed.

Lemma finishes_raise {A} (e : exn) : finishes (S := S) (A := A) (raise e).
  Proof. intros w; discriminate. Qed.

Lemma finishes_emit (e : event) : finishes (S := S) (emit e).
  Proof. intros w; discriminate. Qed.

Lemma finishes_logging lvl msg : finishes (S := S) (logging lvl msg).
  Proof. intros w; discriminate. Qed.

Lemma finishes_call {A} e (op : Z -> S -> reply S A) : finishes (call e op).
  Proof. intros w; unfold call; cbn. destruct (res _); discriminate. Qed.

Lemma finishes_time_time : finishes (S := S) time_time.
  Proof. intros w; discriminate. Qed.

Lemma finishes_get_file : finishes (S := S) get_file.
  Proof. intros w; discriminate. Qed.

Lemma finishes_set_file f : finishes (S := S) (set_file f).
  Proof. intros w; discriminate. Qed.

Lemma finishes_get_row : finishes (S := S) get_row.
  Proof. intros w; discriminate. Qed.

Lemma finishes_set_row d : finishes (S := S) (set_row d).
  Proof. intros w; discriminate. Qed.

Lemma finishes_bind {A B} (m : M S A) (k : A -> M S B) :
    finishes m -> (forall a, finishes (k a)) -> finishes (bind m k).
  Proof.
    intros Hm Hk w. unfold bind. specialize (Hm w).
    destruct (out (m w)) as [a| |] eqn:E; cbn; [apply Hk | discriminate | congruence].
  Qed.

Lemma finishes_try_except {A} (m : M S A) (h : exn -> M S A) :
    finishes m -> (forall e, finishes (h e)) -> finishes (try_except m h).
  Proof.
    intros Hm Hh w. unfold try_except. specialize (Hm w).
    destruct (out (m w)) as [a|e|] eqn:E; cbn; [congruence | apply Hh | congruence].
  Qed.

Lemma finishes_try_finally {A} (m : M S A) (fin : M S unit) :
    finishes m -> finishes fin -> finishes (try_finally m fin).
  Proof.
    intros Hm Hf w. unfold try_finally. specialize (Hm w).
    destruct (out (m w)) as [a|e|] eqn:E; try congruence;
      specialize (Hf (st (m w)));
      destruct (out (fin (st (m w)))); cbn; congruence.
  Qed.

Lemma never_raises_ret {A} (a : A) : never_raises (S := S) (ret a).
Proof. intros w e; discriminate. Qed.

Lemma never_raises_logging lvl msg : never_raises (S := S) (logging lvl msg).
Proof. intros w e; discriminate. Qed.

Lemma never_raises_get_file : never_raises (S := S) get_file.
Proof. intros w e; discriminate. Qed.

Lemma never_raises_set_file f : never_raises (S := S) (set_file f).
Proof. intros w e; discriminate. Qed.

Lemma never_raises_bind {A B} (m : M S A) (k : A -> M S B) :
  never_raises m -> (forall a, never_raises (k a)) -> never_raises (bind m k).
Proof.
  intros Hm Hk w e. unfold bind. specialize (Hm w).
  destruct (out (m w)) as [a|e'|] eqn:E; cbn; [apply Hk | | discriminate].
  exfalso; eapply Hm; reflexivity.
Qed.

Lemma never_raises_try_except {A} (m : M S A) (h : exn -> M S A) :
  (forall e, never_raises (h e)) -> never_raises (try_except m h).
Proof.
  intros Hh w e. unfold try_except.
  destruct (out (m w)) as [a|e'|] eqn:E; cbn; [congruence | apply Hh | congruence].
Qed.

Lemma never_raises_try_finally {A} (m : M S A) (fin : M S unit) :
  never_raises m -> never_raises fin -> never_raises (try_finally m fin).
Proof.
  intros Hm Hf w e. unfold try_finally. specialize (Hm w).
  destruct (out (m w)) as [a|e'|] eqn:E; [ | | congruence];
    pose proof (Hf (st (m w))) as Hf';
    destruct (out (fin (st (m w)))) as [u|e2|]; cbn; try congruence.
  all: try (exfalso; eapply Hf'; reflexivity).
  all: exfalso; eapply Hm; reflexivity.
Qed.

Section Emits.

Variable P : event -> Prop.

Lemma emits_ret {A} (a : A) : emits (S := S) P (ret a).
    Proof. intros w; constructor. Qed.

Lemma emits_raise {A} (e : exn) : emits (S := S) (A := A) P (raise e).
    Proof. intros w; constructor. Qed.

Lemma emits_out_of_fuel {A} : emits (S := S) (A := A) P out_of_fuel.
    Proof. intros w; constructor. Qed.

Lemma emits_emit (e : event) : P e -> emits (S := S) P (emit e).
    Proof. intros H w; cbn; auto. Qed.

Lemma emits_logging lvl msg : P (EvLog lvl msg) -> emits (S := S) P (logging lvl msg).
    Proof. intros H w; cbn; auto. Qed.

Lemma emits_call {A} e (op : Z -> S -> reply S A) : P e -> emits P (call e op).
    Proof. intros H w; cbn; auto. Qed.

Lemma emits_time_time : emits (S := S) P time_time.
    Proof. intros w; constructor. Qed.

Lemma emits_get_file : emits (S := S) P get_file.
    Proof. intros w; constructor. Qed.

Lemma emits_set_file f : emits (S := S) P (set_file f).
    Proof. intros w; constructor. Qed.

Lemma emits_get_row : emits (S := S) P get_row.
    Proof. intros w; constructor. Qed.

Lemma emits_set_row d : emits (S := S) P (set_row d).
    Proof. intros w; constructor. Qed.

Lemma emits_bind {A B} (m : M S A) (k : A -> M S B) :
      emits P m -> (forall a, emits P (k a)) -> emits P (bind m k).
    Proof.
      intros Hm Hk w. unfold bind. specialize (Hm w).
      destruct (out (m w)) as [a| |]; cbn; auto.
      apply Forall_app; split; auto. apply Hk.
    Qed.

Lemma emits_try_except {A} (m : M S A) (h : exn -> M S A) :
      emits P m -> (forall e, emits P (h e)) -> emits P (try_except m h).
    Proof.
      intros Hm Hh w. unfold try_except. specialize (Hm w).
      destruct (out (m w)) as [a|e|]; cbn; auto.
      apply Forall_app; split; auto. apply Hh.
    Qed.

Lemma emits_try_finally {A} (m : M S A) (fin : M S unit) :
      emits P m -> emits P fin -> emits P (try_finally m fin).
    Proof.
      intros Hm Hf w. unfold try_finally. specialize (Hm w).
      destruct (out (m w)) as [a|e|]; auto;
        specialize (Hf (st (m w)));
        destruct (out (fin (st (m w)))); cbn; apply Forall_app; auto.
    Qed.

End Emits.

Section Keeps.

Context (R : State S -> State S -> Prop) {R_preorder : PreOrder R}.

Let R_refl : forall w, R w w := fun w => reflexivity w.
Let R_trans : forall w1 w2 w3, R w1 w2 -> R w2 w3 -> R w1 w3 :=
      fun w1 w2 w3 => transitivity (x := w1) (y := w2) (z := w3).

Lemma keeps_ret {A} (a : A) : keeps R (ret a).
    Proof. intros w; apply R_refl. Qed.

Lemma keeps_raise {A} (e : exn) : keeps (A := A) R (raise e).
    Proof. intros w; apply R_refl. Qed.

Lemma keeps_out_of_fuel {A} : keeps (A := A) R out_of_fuel.
    Proof. intros w; apply R_refl. Qed.

Lemma keeps_emit (e : event) : keeps R (emit e).
    Proof. intros w; apply R_refl. Qed.

Lemma keeps_logging lvl msg : keeps R (logging lvl msg).
    Proof. intros w; apply R_refl. Qed.

Lemma keeps_time_time : keeps R time_time.
    Proof. intros w; apply R_refl. Qed.

Lemma keeps_get_file : keeps R get_file.
    Proof. intros w; apply R_refl. Qed.

Lemma keeps_get_row : keeps R get_row.
    Proof. intros w; apply R_refl. Qed.

Lemma keeps_bind {A B} (m : M S A) (k : A -> M S B) :
      keeps R m -> (forall a, keeps R (k a)) -> keeps R (bind m k).
    Proof.
      intros Hm Hk w. unfold bind. specialize (Hm w).
      destruct (out (m w)) as [a| |]; cbn; auto.
      eapply R_trans; [exact Hm | apply Hk].
    Qed.

Lemma keeps_try_except {A} (m : M S A) (h : exn -> M S A) :
      keeps R m -> (forall e, keeps R (h e)) -> keeps R (try_except m h).
    Proof.
      intros Hm Hh w. unfold try_except. specialize (Hm w).
      destruct (out (m w)) as [a|e|]; cbn; auto.
      eapply R_trans; [exact Hm | apply Hh].
    Qed.

Lemma keeps_try_finally {A} (m : M S A) (fin : M S unit) :
      keeps R m -> keeps R fin -> keeps R (try_finally m fin).
    Proof.
      intros Hm Hf w. unfold try_finally. specialize (Hm w).
      destruct (out (m w)) as [a|e|]; auto;
        specialize (Hf (st (m w)));
        destruct (out (fin (st (m w)))); cbn; eapply R_trans; eauto.
    Qed.

End Keeps.

End Laws.

#[global] Instance same_row_preorder {S} : PreOrder (@same_row S).
Proof. split; unfold same_row; [intros w | intros a b c]; congruence. Qed.

#[global] Instance same_file_preorder {S} : PreOrder (@same_file S).
Proof. split; unfold same_file; [intros w | intros a b c]; congruence. Qed.

#[global] Instance later_preorder {S} : PreOrder (@later S).
Proof. split; unfold later; [intros w | intros a b c]; lia. Qed.

(** One step through the structure of a computation. *)
Ltac comp_step :=
  lazymatch goal with
  | |- finishes (bind _ _) => apply finishes_bind; [ | intros ? ]
  | |- finishes (try_except _ _) => apply finishes_try_except; [ | intros ? ]
  | |- finishes (try_finally _ _) => apply finishes_try_finally
  | |- finishes (ret _) => apply finishes_ret
  | |- finishes (raise _) => apply finishes_raise
  | |- finishes (emit _) => apply finishes_emit
  | |- finishes (logging _ _) => apply finishes_logging
  | |- finishes (call _ _) => apply finishes_call
  | |- finishes time_time => apply finishes_time_time
  | |- finishes get_file => apply finishes_get_file
  | |- finishes (set_file _) => apply finishes_set_file
  | |- finishes get_row => apply finishes_get_row
  | |- finishes (set_row _) => apply finishes_set_row
  | |- finishes (match ?x with _ => _ end) => destruct x
  | |- never_raises (bind _ _) => apply never_raises_bind; [ | intros ? ]
  | |- never_raises (try_except _ _) => apply never_raises_try_except; intros ?
  | |- never_raises (try_finally _ _) => apply never_raises_try_finally
  | |- never_raises (ret _) => apply never_raises_ret
  | |- never_raises (logging _ _) => apply never_raises_logging
  | |- never_raises get_file => apply never_raises_get_file
  | |- never_raises (set_file _) => apply never_raises_set_file
  | |- never_raises (match ?x with _ => _ end) => destruct x
  | |- emits _ (bind _ _) => apply emits_bind; [ | intros ? ]
  | |- emits _ (try_except _ _) => apply emits_try_except; [ | intros ? ]
  | |- emits _ (try_finally _ _) => apply emits_try_finally
  | |- emits _ (ret _) => apply emits_ret
  | |- emits _ (raise _) => apply emits_raise
  | |- emits _ out_of_fuel => apply emits_out_of_fuel
  | |- emits _ (emit _) => apply emits_emit; cbn; auto
  | |- emits _ (logging _ _) => apply emits_logging; cbn; auto
  | |- emits _ (call _ _) => apply emits_call; cbn; auto
  | |- emits _ time_time => apply emits_time_time
  | |- emits _ get_file => apply emits_get_file
  | |- emits _ (set_file _) => apply emits_set_file
  | |- emits _ get_row => apply emits_get_row
  | |- emits _ (set_row _) => apply emits_set_row
  | |- emits _ (match ?x with _ => _ end) => destruct x
  | |- keeps _ (bind _ _) => apply keeps_bind; [ typeclasses eauto | | intros ? ]
  | |- keeps _ (try_except _ _) => apply keeps_try_except; [ typeclasses eauto | | intros ? ]
  | |- keeps _ (try_finally _ _) => apply keeps_try_finally; [ typeclasses eauto | | ]
  | |- keeps _ (ret _) => apply keeps_ret; typeclasses eauto
  | |- keeps _ (raise _) => apply keeps_raise; typeclasses eauto
  | |- keeps _ out_of_fuel => apply keeps_out_of_fuel; typeclasses eauto
  | |- keeps _ (emit _) => apply keeps_emit; typeclasses eauto
  | |- keeps _ (logging _ _) => apply keeps_logging; typeclasses eauto
  | |- keeps _ time_time => apply keeps_time_time; typeclasses eauto
  | |- keeps _ get_file => apply keeps_get_file; typeclasses eauto
  | |- keeps _ get_row => apply keeps_get_row; typeclasses eauto
  | |- keeps _ (match ?x with _ => _ end) => destruct x
  end.

Create HintDb comp.

Ltac comp := repeat (first [ comp_step | solve [ auto with comp ] ]).

(** ** How [bind], [try_except] and [try_finally] run *)

Section Running.

Context {S : Type}.

Lemma bind_normal {A B} (m : M S A) (k : A -> M S B) w a :
    out (m w) = Normal a ->
    bind m k w = MkResult (out (k a (st (m w)))) (st (k a (st (m w))))
                          (evs (m w) ++ evs (k a (st (m w)))).
  Proof. intros H; unfold bind; rewrite H; reflexivity. Qed.

Lemma bind_raised {A B} (m : M S A) (k : A -> M S B) w e :
    out (m w) = Raised e ->
    bind m k w = MkResult (Raised e) (st (m w)) (evs (m w)).
  Proof. intros H; unfold bind; rewrite H; reflexivity. Qed.

Lemma bind_out_of_fuel {A B} (m : M S A) (k : A -> M S B) w :
    out (m w) = OutOfFuel ->
    bind m k w = MkResult OutOfFuel (st (m w)) (evs (m w)).
  Proof. intros H; unfold bind; rewrite H; reflexivity. Qed.

Lemma try_except_raised {A} (m : M S A) (h : exn -> M S A) w e :
    out (m w) = Raised e ->
    try_except m h w = MkResult (out (h e (st (m w)))) (st (h e (st (m w))))
                                (evs (m w) ++ evs (h e (st (m w)))).
  Proof. intros H; unfold try_except; rewrite H; reflexivity. Qed.

Lemma try_except_normal {A} (m : M S A) (h : exn -> M S A) w a :
    out (m w) = Normal a -> try_except m h w = m w.
  Proof. intros H; unfold try_except; rewrite H; reflexivity. Qed.

Lemma try_except_out_of_fuel {A} (m : M S A) (h : exn -> M S A) w :
    out (m w) = OutOfFuel -> try_except m h w = m w.
  Proof. intros H; unfold try_except; rewrite H; reflexivity. Qed.

Lemma result_eta {A} (r : Result S A) : MkResult (out r) (st r) (evs r) = r.
  Proof. destruct r; reflexivity. Qed.

Lemma set_file_bind {A} (f : option string) (m : M S A) w :
  (set_file f ;; m) w = m (MkState (svc w) (now w) f (row w)).
Proof.
  unfold bind, set_file; cbn [out st evs app]. apply result_eta.
Qed.

(** A [finally] clause that ends normally leaves the outcome alone. *)
Lemma try_finally_run {A} (m : M S A) (fin : M S unit) w :
  out (fin (st (m w))) = Normal tt ->
  out (m w) <> OutOfFuel ->
  try_finally m fin w
  = MkResult (out (m w)) (st (fin (st (m w)))) (evs (m w) ++ evs (fin (st (m w)))).
Proof.
  intros Hf Hm. unfold try_finally.
  destruct (out (m w)); try congruence; rewrite Hf; reflexivity.
Qed.

Lemma emit_bind {A} (e : event) (m : M S A) w :
  (emit e ;; m) w = MkResult (out (m w)) (st (m w)) (e :: evs (m w)).
Proof. unfold bind, emit; cbn [out st evs app]. reflexivity. Qed.

Lemma set_row_bind {A} (d : dict) (m : M S A) w :
  (set_row d ;; m) w = m (MkState (svc w) (now w) (file w) d).
Proof. unfold bind, set_row; cbn [out st evs app]. apply result_eta. Qed.

Lemma get_row_bind {A} (k : dict -> M S A) w :
  (r <- get_row ;; k r) w = k (row w) w.
Proof. unfold bind, get_row; cbn [out st evs app]. apply result_eta. Qed.

Lemma bind_evs {A B} (m : M S A) (k : A -> M S B) w :
  exists tail, evs (bind m k w) = (evs (m w) ++ tail)%list
               /\ (tail = [] \/ exists a, tail = evs (k a (st (m w)))).
Proof.
  unfold bind. destruct (out (m w)) as [a| |]; cbn [evs].
  - eexists; split; [reflexivity|]. right; eauto.
  - exists []; rewrite app_nil_r; auto.
  - exists []; rewrite app_nil_r; auto.
Qed.

Lemma try_except_evs {A} (m : M S A) (h : exn -> M S A) w :
  exists tail, evs (try_except m h w) = (evs (m w) ++ tail)%list
               /\ (tail = [] \/ exists e, tail = evs (h e (st (m w)))).
Proof.
  unfold try_except. destruct (out (m w)) as [a|e|]; cbn [evs].
  - exists []; rewrite app_nil_r; auto.
  - eexists; split; [reflexivity|]. right; eauto.
  - exists []; rewrite app_nil_r; auto.
Qed.

Lemma try_finally_evs {A} (m : M S A) (fin : M S unit) w :
  exists tail, evs (try_finally m fin w) = (evs (m w) ++ tail)%list
               /\ (tail = [] \/ tail = evs (fin (st (m w)))).
Proof.
  unfold try_finally. destruct (out (m w)) as [a|e|]; cbn [evs].
  - destruct (out (fin (st (m w)))); cbn [evs]; eexists; split; eauto.
  - destruct (out (fin (st (m w)))); cbn [evs]; eexists; split; eauto.
  - exists []; rewrite app_nil_r; auto.
Qed.

Lemma try_finally_out {A} (m : M S A) (fin : M S unit) w :
  (forall w', out (fin w') = Normal tt) ->
  out (try_finally m fin w) = out (m w).
Proof.
  intros Hf. unfold try_finally.
  destruct (out (m w)) eqn:E; try rewrite Hf; cbn [out]; auto.
Qed.

End Running.

(** ** The primitives of the program *)

Section Primitives.

Context {S : Type} {service : Service S}.

Lemma call_same_row {A} e (op : Z -> S -> reply S A) : keeps same_row (call e op).
  Proof. intros w; reflexivity. Qed.

Lemma call_same_file {A} e (op : Z -> S -> reply S A) : keeps same_file (call e op).
  Proof. intros w; reflexivity. Qed.

Lemma call_later {A} e (op : Z -> S -> reply S A) : keeps later (call e op).
  Proof. intros w; unfold later; cbn; lia. Qed.

Lemma set_file_same_row f : keeps (S := S) same_row (set_file f).
  Proof. intros w; reflexivity. Qed.

Lemma set_file_later f : keeps (S := S) later (set_file f).
  Proof. intros w; unfold later; cbn; lia. Qed.

Lemma set_row_same_file d : keeps (S := S) same_file (set_row d).
  Proof. intros w; reflexivity. Qed.

Lemma set_row_later d : keeps (S := S) later (set_row d).
  Proof. intros w; unfold later; cbn; lia. Qed.

Lemma time_sleep_same_row d : keeps same_row (time_sleep d).
  Proof. intros w; reflexivity. Qed.

Lemma time_sleep_same_file d : keeps same_file (time_sleep d).
  Proof. intros w; reflexivity. Qed.

Lemma time_sleep_later d : 0 <= d -> keeps later (time_sleep d).
  Proof. intros H w; unfold later; cbn; lia. Qed.

Lemma finishes_time_sleep d : finishes (time_sleep d).
  Proof. intros w; discriminate. Qed.

Lemma emits_time_sleep (P : event -> Prop) d : P (EvSleep d) -> emits P (time_sleep d).
  Proof. intros H w; cbn; auto. Qed.

End Primitives.

#[global] Hint Resolve call_same_row call_same_file call_later set_file_same_row
  set_file_later set_row_same_file set_row_later time_sleep_same_row
  time_sleep_same_file time_sleep_later finishes_time_sleep : comp.

#[global] Hint Extern 1 (emits _ (time_sleep _)) => apply emits_time_sleep; cbn; tauto : comp.
#[global] Hint Extern 1 (_ <= _) => lia : comp.

(** ** The polling loop *)

Section Polling.

Context {S : Type} {service : Service S}.

  (** The events of a run of the loop: a sleep of 5 and a retrieval, over
      and over. *)
Lemma poll_keeps_row fuel th start run : keeps same_row (poll fuel th start run).
  Proof.
    revert run; induction fuel as [|fuel IH]; intros run; cbn [poll]; comp.
  Qed.

Lemma poll_keeps_file fuel th start run : keeps same_file (poll fuel th start run).
  Proof.
    revert run; induction fuel as [|fuel IH]; intros run; cbn [poll]; comp.
  Qed.

Lemma poll_later fuel th start run : keeps later (poll fuel th start run).
  Proof.
    revert run; induction fuel as [|fuel IH]; intros run; cbn [poll]; comp.
  Qed.

Lemma poll_emits fuel th start run :
    emits is_backoff_or_poll (poll fuel th start run).
  Proof.
    revert run; induction fuel as [|fuel IH]; intros run; cbn [poll]; comp.
  Qed.

  (** A run that leaves the loop normally is in a terminal state. *)
Lemma poll_normal_terminal fuel th start run w r :
    out (poll fuel th start run w) = Normal r -> terminal (status r) = true.
  Proof.
    revert run w; induction fuel as [|fuel IH]; intros run w; cbn [poll].
    - discriminate.
    - destruct (terminal (status run)) eqn:T.
      + cbn. intros [= <-]. exact T.
      + unfold bind; cbn.
        destruct (now w - start >? 300); cbn; [discriminate|].
        destruct (res (runs_retrieve _ _ _ _)) as [e|run']; cbn; [discriminate|].
        intros H. eapply IH. exact H.
  Qed.

  (** Enough fuel for the time left: the loop ends. *)
Lemma poll_finishes fuel th start run w :
    (1 <= fuel)%nat ->
    310 - (now w - start) <= 5 * Z.of_nat fuel ->
    out (poll fuel th start run w) <> OutOfFuel.
  Proof.
    revert run w; induction fuel as [|fuel IH]; intros run w Hf Ht; [lia|].
    cbn [poll]. destruct (terminal (status run)); [cbn; discriminate|].
    unfold bind; cbn.
    destruct (now w - start >? 300) eqn:E; cbn; [discriminate|].
    rewrite Z.gtb_ltb in E. apply Z.ltb_ge in E.
    destruct (res (runs_retrieve _ _ _ _)) as [e|run']; cbn; [discriminate|].
    apply IH; cbn; lia.
  Qed.



End Polling.

(** ** One attempt: [process_pdf] *)

Section Attempt.

Context {S : Type} {service : Service S}.
Variable json_loads : string -> exn + dict.

Lemma poll_not_delete fuel th start run : emits not_delete (poll fuel th start run).
Proof. revert run; induction fuel as [|fuel IH]; intros run; cbn [poll]; comp. Qed.

Lemma poll_not_write_row fuel th start run : emits not_write_row (poll fuel th start run).
Proof. revert run; induction fuel as [|fuel IH]; intros run; cbn [poll]; comp. Qed.

Lemma wait_run_finishes k th run : finishes (wait_run (62 + k) th run).
Proof.
  intros w. unfold wait_run, bind, time_time. cbn [out st evs].
  apply poll_finishes; lia.
Qed.

Lemma upload_file_finishes pdf : finishes (upload_file pdf).
Proof. unfold upload_file; comp. Qed.

Lemma start_run_finishes f aid : finishes (start_run f aid).
Proof. unfold start_run; comp. Qed.

Lemma read_result_finishes th run : finishes (read_result json_loads th run).
Proof. unfold read_result; comp. Qed.

Lemma run_to_terminal_finishes k pdf aid : finishes (run_to_terminal (62 + k) pdf aid).
Proof.
  unfold run_to_terminal, submit_run.
  pose proof wait_run_finishes. pose proof upload_file_finishes.
  pose proof start_run_finishes. comp.
Qed.

Lemma process_pdf_try_finishes k pdf aid :
  finishes (process_pdf_try json_loads (62 + k) pdf aid).
Proof.
  unfold process_pdf_try.
  pose proof run_to_terminal_finishes. pose proof read_result_finishes. comp.
Qed.

(** *** What the stages leave alone *)

Lemma upload_file_facts pdf :
  keeps same_row (upload_file pdf) /\ keeps later (upload_file pdf)
  /\ emits not_delete (upload_file pdf) /\ emits not_write_row (upload_file pdf).
Proof. unfold upload_file; repeat split; comp. Qed.

Lemma start_run_facts f aid :
  keeps same_row (start_run f aid) /\ keeps same_file (start_run f aid)
  /\ keeps later (start_run f aid)
  /\ emits not_delete (start_run f aid) /\ emits not_write_row (start_run f aid).
Proof. unfold start_run; repeat split; comp. Qed.

Lemma wait_run_facts fuel th run :
  keeps same_row (wait_run fuel th run) /\ keeps same_file (wait_run fuel th run)
  /\ keeps later (wait_run fuel th run)
  /\ emits not_delete (wait_run fuel th run) /\ emits not_write_row (wait_run fuel th run).
Proof.
  pose proof poll_keeps_row. pose proof poll_keeps_file. pose proof poll_later.
  pose proof poll_not_delete. pose proof poll_not_write_row.
  unfold wait_run; repeat split; comp.
Qed.

Lemma read_result_facts th run :
  keeps same_row (read_result json_loads th run)
  /\ keeps same_file (read_result json_loads th run)
  /\ keeps later (read_result json_loads th run)
  /\ emits not_delete (read_result json_loads th run)
  /\ emits not_write_row (read_result json_loads th run).
Proof. unfold read_result; repeat split; comp. Qed.

Lemma process_pdf_except_facts pdf e :
  let h : M S dict := process_pdf_except pdf e in
  keeps same_row h /\ keeps same_file h /\ keeps later h
  /\ emits not_delete h /\ emits not_write_row h.
Proof. unfold process_pdf_except; repeat split; comp. Qed.

Lemma process_pdf_guarded_facts fuel pdf aid :
  keeps same_row (process_pdf_guarded json_loads fuel pdf aid)
  /\ keeps later (process_pdf_guarded json_loads fuel pdf aid)
  /\ emits not_delete (process_pdf_guarded json_loads fuel pdf aid)
  /\ emits not_write_row (process_pdf_guarded json_loads fuel pdf aid)
  /\ never_raises (process_pdf_guarded json_loads fuel pdf aid).
Proof.
  destruct (upload_file_facts pdf) as (U1 & U2 & U3 & U4).
  pose proof (fun f => proj1 (start_run_facts f aid)).
  pose proof (fun f => proj1 (proj2 (proj2 (start_run_facts f aid)))).
  pose proof (fun f => proj1 (proj2 (proj2 (proj2 (start_run_facts f aid))))).
  pose proof (fun f => proj2 (proj2 (proj2 (proj2 (start_run_facts f aid))))).
  pose proof (fun th run => proj1 (wait_run_facts fuel th run)).
  pose proof (fun th run => proj1 (proj2 (proj2 (wait_run_facts fuel th run)))).
  pose proof (fun th run => proj1 (proj2 (proj2 (proj2 (wait_run_facts fuel th run))))).
  pose proof (fun th run => proj2 (proj2 (proj2 (proj2 (wait_run_facts fuel th run))))).
  pose proof (fun th run => proj1 (read_result_facts th run)).
  pose proof (fun th run => proj1 (proj2 (proj2 (read_result_facts th run)))).
  pose proof (fun th run => proj1 (proj2 (proj2 (proj2 (read_result_facts th run))))).
  pose proof (fun th run => proj2 (proj2 (proj2 (proj2 (read_result_facts th run))))).
  unfold process_pdf_guarded, process_pdf_try, run_to_terminal, submit_run,
    process_pdf_except.
  repeat split; comp.
Qed.

(** *** How the [except] clause and the [finally] clause run *)

(** The guarded [try] block ends normally: with the record, or with the
    plain error descriptor of the exception raised. *)
Lemma process_pdf_guarded_out fuel pdf aid w :
  out (process_pdf_guarded json_loads fuel pdf aid w) =
  match out (process_pdf_try json_loads fuel pdf aid w) with
  | Normal record => Normal record
  | Raised e => Normal [("error", PStr (str_exn e))]
  | OutOfFuel => OutOfFuel
  end.
Proof.
  unfold process_pdf_guarded, try_except.
  destruct (out (process_pdf_try json_loads fuel pdf aid w)) eqn:E; cbn; auto.
Qed.

Lemma process_pdf_finally_run (w : State S) :
  process_pdf_finally w =
  match file w with
  | Some file_id =>
      let r := files_delete (now w) file_id (svc w) in
      MkResult (Normal tt)
               (MkState (next r) (now w + Z.of_N (took r)) (file w) (row w))
               (EvDelete file_id ::
                  match res r with
                  | inl e => [EvLog WARNING ("File deletion failed: " ++ str_exn e)]
                  | inr _ => []
                  end)
  | None => MkResult (Normal tt) w []
  end.
Proof.
  unfold process_pdf_finally, bind, get_file; cbn [out st evs].
  destruct (file w) as [file_id|] eqn:F; [|reflexivity].
  unfold try_except, call, logging, emit; cbn [out st evs].
  destruct (res (files_delete (now w) file_id (svc w))) as [e|[]]; cbn; rewrite ?F; reflexivity.
Qed.

Lemma process_pdf_finally_out (w : State S) : out (process_pdf_finally w) = Normal tt.
Proof. rewrite process_pdf_finally_run. destruct (file w); reflexivity. Qed.

Lemma process_pdf_run fuel pdf aid w :
  let body := process_pdf_guarded json_loads fuel pdf aid (fresh w) in
  out body <> OutOfFuel ->
  process_pdf json_loads fuel pdf aid w =
  let fin := process_pdf_finally (st body) in
  MkResult (out body) (st fin) (evs body ++ evs fin).
Proof.
  cbv zeta. intros Hb. unfold process_pdf. rewrite set_file_bind.
  apply try_finally_run; [apply process_pdf_finally_out | exact Hb].
Qed.

Lemma bind_assoc {A B C} (m : M S A) (k : A -> M S B) (k' : B -> M S C) w :
  bind (bind m k) k' w = bind m (fun a => bind (k a) k') w.
Proof.
  unfold bind. destruct (out (m w)) as [a| |]; cbn [out st evs]; auto.
  destruct (out (k a (st (m w)))); cbn [out st evs]; rewrite ?app_assoc; reflexivity.
Qed.

Lemma upload_file_file pdf w :
  file (st (upload_file pdf w)) =
  match out (upload_file pdf w) with
  | Normal f => Some f
  | _ => file w
  end.
Proof.
  unfold upload_file, bind, call, set_file, logging, emit, ret; cbn [out st evs].
  destruct (res (open_rb _ _ _)) as [e|[]]; cbn [out st evs file]; auto.
  destruct (res (files_create _ _ _)) as [e|f]; cbn [out st evs file]; auto.
Qed.

(** After the guarded [try] block, [file] is among the locals exactly when
    the upload succeeded. *)
Lemma process_pdf_guarded_file fuel pdf aid w :
  file (st (process_pdf_guarded json_loads fuel pdf aid w)) =
  match out (upload_file pdf w) with
  | Normal f => Some f
  | _ => file w
  end.
Proof.
  assert (Hg : file (st (process_pdf_guarded json_loads fuel pdf aid w))
               = file (st (process_pdf_try json_loads fuel pdf aid w))).
  { unfold process_pdf_guarded, try_except.
    destruct (out (process_pdf_try json_loads fuel pdf aid w)); reflexivity. }
  rewrite Hg. unfold process_pdf_try, run_to_terminal, submit_run.
  rewrite bind_assoc. rewrite bind_assoc. rewrite <- (upload_file_file pdf w).
  unfold bind at 1.
  destruct (out (upload_file pdf w)) as [f| |] eqn:U; cbn [st]; auto.
  match goal with
  | |- file (st (?m ?w')) = _ => assert (K : keeps same_file m)
  end.
  { pose proof (fun f => proj1 (proj2 (start_run_facts f aid))).
    pose proof (fun th run => proj1 (proj2 (wait_run_facts fuel th run))).
    pose proof (fun th run => proj1 (proj2 (read_result_facts th run))).
    comp. }
  apply K.
Qed.

Lemma deletions_app l1 l2 : deletions (l1 ++ l2) = (deletions l1 ++ deletions l2)%list.
Proof.
  induction l1 as [|e l1 IH]; cbn; auto.
  destruct e; cbn; rewrite ?IH; reflexivity.
Qed.

Lemma deletions_none l : Forall not_delete l -> deletions l = [].
Proof.
  induction 1 as [|e l He Hl IH]; cbn; auto.
  destruct e; cbn in *; auto; contradiction.
Qed.

Lemma warnings_app l1 l2 : warnings (l1 ++ l2) = (warnings l1 ++ warnings l2)%list.
Proof.
  induction l1 as [|e l1 IH]; cbn; auto.
  destruct e as [| | | | | | | | | | | | | | | |[] msg]; cbn; rewrite ?IH; reflexivity.
Qed.

(** With enough fuel an attempt ends, and it ends normally. *)
Lemma process_pdf_returns k pdf aid w :
  exists d, out (process_pdf json_loads (62 + k) pdf aid w) = Normal d.
Proof.
  pose proof (process_pdf_try_finishes k pdf aid (fresh w)) as Hfin.
  pose proof (process_pdf_guarded_out (62 + k) pdf aid (fresh w)) as Hout.
  rewrite process_pdf_run.
  - cbn [out]. rewrite Hout.
    destruct (out (process_pdf_try json_loads (62 + k) pdf aid (fresh w))); eauto.
    congruence.
  - rewrite Hout.
    destruct (out (process_pdf_try json_loads (62 + k) pdf aid (fresh w))); congruence.
Qed.

(** C7. In every attempt in which the upload succeeds, exactly one deletion
    call is issued, for the uploaded file id, after everything else the
    attempt does and before it returns, whether the guarded block ended
    with a record or with an error descriptor; the attempt's outcome is the
    outcome of the guarded block, which is fixed before the deletion is
    called, so a failing deletion does not change it and only adds a
    WARNING line to the log; when the upload did not succeed, no deletion
    call is issued. *)
Theorem cleanup_exactly_once (k : nat) (pdf : Path) (aid : string) (w : State S) :
  let fuel := (62 + k)%nat in
  let body := process_pdf_guarded json_loads fuel pdf aid (fresh w) in
  let r := process_pdf json_loads fuel pdf aid w in
  let deleting file_id := files_delete (now (st body)) file_id (svc (st body)) in
  out r = out body
  /\ (exists d, out r = Normal d)
  /\ deletions (evs body) = []
  /\ match out (upload_file pdf (fresh w)) with
     | Normal file_id =>
         deletions (evs r) = [file_id]
         /\ evs r = (evs body ++ EvDelete file_id ::
                       match res (deleting file_id) with
                       | inl e => [EvLog WARNING ("File deletion failed: " ++ str_exn e)]
                       | inr _ => []
                       end)%list
     | _ => deletions (evs r) = [] /\ evs r = evs body
     end.
Proof.
  intros fuel body r deleting.
  destruct (process_pdf_returns k pdf aid w) as [d Hd]. fold fuel in Hd. fold r in Hd.
  assert (Hb : out body <> OutOfFuel).
  { unfold body. rewrite process_pdf_guarded_out.
    pose proof (process_pdf_try_finishes k pdf aid (fresh w)) as Hfin. fold fuel in Hfin.
    destruct (out (process_pdf_try json_loads fuel pdf aid (fresh w))); congruence. }
  pose proof (process_pdf_run fuel pdf aid w Hb) as Hrun. fold r in Hrun. cbv zeta in Hrun.
  fold body in Hrun.
  assert (Hnd : deletions (evs body) = []).
  { apply deletions_none.
    apply (proj1 (proj2 (proj2 (process_pdf_guarded_facts fuel pdf aid)))). }
  pose proof (process_pdf_guarded_file fuel pdf aid (fresh w)) as Hfile. fold body in Hfile.
  rewrite process_pdf_finally_run in Hrun.
  split; [rewrite Hrun; reflexivity|].
  split; [eauto|]. split; [exact Hnd|].
  destruct (out (upload_file pdf (fresh w))) as [file_id| |];
    rewrite Hfile in Hrun; cbn [file fresh] in Hrun; rewrite Hrun; cbn [evs].
  - split; [|reflexivity].
    rewrite deletions_app, Hnd. cbn.
    destruct (res (files_delete _ _ _)); reflexivity.
  - rewrite app_nil_r. auto.
  - rewrite app_nil_r. auto.
Qed.

(** *** The outcome of an attempt *)

Lemma process_pdf_never_raises fuel pdf aid :
  never_raises (process_pdf json_loads fuel pdf aid).
Proof.
  pose proof (proj2 (proj2 (proj2 (proj2 (process_pdf_guarded_facts fuel pdf aid))))).
  unfold process_pdf, process_pdf_finally. comp.
Qed.

(** The outcome of an attempt is the outcome of its guarded [try] block. *)
Lemma process_pdf_out fuel pdf aid w :
  out (process_pdf json_loads fuel pdf aid w)
  = out (process_pdf_guarded json_loads fuel pdf aid (fresh w)).
Proof.
  unfold process_pdf. rewrite set_file_bind.
  apply try_finally_out. apply process_pdf_finally_out.
Qed.

Lemma wait_run_normal_terminal fuel th run w r :
  out (wait_run fuel th run w) = Normal r -> terminal (status r) = true.
Proof.
  unfold wait_run, bind, time_time; cbn [out st evs]. apply poll_normal_terminal.
Qed.

Lemma run_to_terminal_terminal fuel pdf aid w th run :
  out (run_to_terminal fuel pdf aid w) = Normal (th, run) -> terminal (status run) = true.
Proof.
  unfold run_to_terminal. unfold bind at 1.
  destruct (out (submit_run pdf aid w)) as [[th0 run0]| |]; cbn [out st evs]; try discriminate.
  unfold bind at 1.
  destruct (out (wait_run fuel _ _ _)) as [r| |] eqn:W; cbn [out st evs]; try discriminate.
  intros [= _ <-]. eapply wait_run_normal_terminal; eassumption.
Qed.

Lemma terminal_not_completed s :
  terminal s = true -> s <> "completed" -> In s ["failed"; "cancelled"; "expired"].
Proof.
  unfold terminal; cbn [existsb]. intros H Hc.
  destruct (String.eqb_spec s "completed"); [contradiction|].
  destruct (String.eqb_spec s "failed"); [cbn; auto|].
  destruct (String.eqb_spec s "cancelled"); [cbn; auto|].
  destruct (String.eqb_spec s "expired"); [cbn; auto|].
  discriminate.
Qed.

Lemma read_result_not_completed th run w :
  status run <> "completed" ->
  out (read_result json_loads th run w)
  = Raised (RuntimeError (PStr ("Processing failed with status: " ++ status run))).
Proof.
  intros H. unfold read_result. unfold bind at 1.
  destruct (String.eqb_spec (status run) "completed"); [contradiction|].
  reflexivity.
Qed.

(** C8. When the run ends in a terminal state other than completed, that
    state is failed, cancelled or expired and the attempt returns the plain
    error descriptor naming it; no attempt ever propagates an exception:
    whatever the [try] block raises (upload, time-out, bad status, missing
    payload, a decoding error) comes back as the error descriptor holding
    the exception's text. *)
Theorem failed_run_is_error_descriptor
  (fuel : nat) (pdf : Path) (aid : string) (w : State S) (th : string) (run : Run) :
  out (run_to_terminal fuel pdf aid (fresh w)) = Normal (th, run) ->
  status run <> "completed" ->
  In (status run) ["failed"; "cancelled"; "expired"]
  /\ out (process_pdf json_loads fuel pdf aid w)
     = Normal [("error", PStr ("Processing failed with status: " ++ status run))]
  /\ (forall w' e, out (process_pdf json_loads fuel pdf aid w') <> Raised e)
  /\ (forall w' e,
        out (process_pdf_try json_loads fuel pdf aid (fresh w')) = Raised e ->
        out (process_pdf json_loads fuel pdf aid w') = Normal [("error", PStr (str_exn e))]).
Proof.
  intros Hrun Hst. split; [|split; [|split]].
  - apply terminal_not_completed; auto. eapply run_to_terminal_terminal; eassumption.
  - rewrite process_pdf_out, process_pdf_guarded_out.
    unfold process_pdf_try. rewrite (bind_normal _ _ _ _ Hrun). cbn [out fst snd].
    rewrite read_result_not_completed by assumption. reflexivity.
  - intros w' e. apply process_pdf_never_raises.
  - intros w' e He. rewrite process_pdf_out, process_pdf_guarded_out, He. reflexivity.
Qed.

(** *** Polling ends *)




Lemma process_pdf_finally_facts :
  keeps (S := S) same_row process_pdf_finally
  /\ keeps later process_pdf_finally
  /\ emits not_write_row process_pdf_finally
  /\ emits not_open process_pdf_finally.
Proof. unfold process_pdf_finally; repeat split; comp. Qed.

Lemma process_pdf_facts fuel pdf aid :
  keeps same_row (process_pdf json_loads fuel pdf aid)
  /\ keeps later (process_pdf json_loads fuel pdf aid)
  /\ emits not_write_row (process_pdf json_loads fuel pdf aid).
Proof.
  destruct (process_pdf_guarded_facts fuel pdf aid) as (G1 & G2 & _ & G4 & _).
  destruct process_pdf_finally_facts as (F1 & F2 & F3 & _).
  unfold process_pdf; repeat split; comp.
Qed.

(** *** An attempt opens the document once *)

Lemma attempts_started_app l1 l2 :
  attempts_started (l1 ++ l2) = (attempts_started l1 + attempts_started l2)%nat.
Proof. unfold attempts_started. rewrite filter_app, length_app. reflexivity. Qed.

Lemma attempts_started_none l : Forall not_open l -> attempts_started l = 0%nat.
Proof.
  unfold attempts_started.
  induction 1 as [|e l He Hl IH]; cbn; auto.
  destruct e; cbn in *; auto; contradiction.
Qed.

Lemma bind_opens {A B} (m : M S A) (k : A -> M S B) w :
  (forall a, emits not_open (k a)) ->
  attempts_started (evs (bind m k w)) = attempts_started (evs (m w)).
Proof.
  intros Hk. destruct (bind_evs m k w) as (tail & -> & [-> | [a ->]]);
    rewrite attempts_started_app.
  - cbn. lia.
  - rewrite (attempts_started_none _ (Hk a _)). lia.
Qed.

Lemma try_except_opens {A} (m : M S A) (h : exn -> M S A) w :
  (forall e, emits not_open (h e)) ->
  attempts_started (evs (try_except m h w)) = attempts_started (evs (m w)).
Proof.
  intros Hh. destruct (try_except_evs m h w) as (tail & -> & [-> | [e ->]]);
    rewrite attempts_started_app.
  - cbn. lia.
  - rewrite (attempts_started_none _ (Hh e _)). lia.
Qed.

Lemma try_finally_opens {A} (m : M S A) (fin : M S unit) w :
  emits not_open fin ->
  attempts_started (evs (try_finally m fin w)) = attempts_started (evs (m w)).
Proof.
  intros Hf. destruct (try_finally_evs m fin w) as (tail & -> & [-> | ->]);
    rewrite attempts_started_app.
  - cbn. lia.
  - rewrite (attempts_started_none _ (Hf _)). lia.
Qed.

Lemma poll_not_open fuel th start run : emits not_open (poll fuel th start run).
Proof. revert run; induction fuel as [|fuel IH]; intros run; cbn [poll]; comp. Qed.

Lemma upload_file_opens pdf w : attempts_started (evs (upload_file pdf w)) = 1%nat.
Proof.
  unfold upload_file. rewrite bind_opens.
  - reflexivity.
  - intros a. comp.
Qed.

Lemma process_pdf_opens fuel pdf aid w :
  attempts_started (evs (process_pdf json_loads fuel pdf aid w)) = 1%nat.
Proof.
  pose proof poll_not_open as Hp.
  unfold process_pdf. rewrite set_file_bind.
  rewrite try_finally_opens by apply process_pdf_finally_facts.
  unfold process_pdf_guarded.
  rewrite try_except_opens by (intros e; unfold process_pdf_except; comp).
  unfold process_pdf_try.
  rewrite bind_opens by (intros a; unfold read_result; comp).
  unfold run_to_terminal.
  rewrite bind_opens by (intros a; unfold wait_run; comp).
  unfold submit_run.
  rewrite bind_opens by (intros a; unfold start_run; comp).
  apply upload_file_opens.
Qed.

End Attempt.

(** ** The retry loop *)

Section Retry.

Context {S : Type} {service : Service S}.
Variable json_loads : string -> exn + dict.

#[local] Arguments process_pdf : simpl never.
#[local] Arguments time_sleep : simpl never.

Lemma accept_result_run d (w : State S) :
  accept_result d w =
  if failed d
  then MkResult (Raised (RuntimeError (Dict.get_default "error" PNone d))) w []
  else MkResult (Normal Break)
                (MkState (svc w) (now w) (file w) (success_row (row w) d)) [].
Proof.
  unfold accept_result, failed. destruct (Dict.contains "error" d).
  - reflexivity.
  - reflexivity.
Qed.

(** One turn of the loop, once the attempt has returned [d]. *)
Lemma attempt_turn_run fuel pdf aid attempt w d :
  let a := process_pdf json_loads fuel pdf aid w in
  out a = Normal d ->
  attempt_turn json_loads fuel pdf aid attempt w =
  if failed d then
    if attempt =? 2
    then MkResult (Raised (RuntimeError (Dict.get_default "error" PNone d))) (st a) (evs a)
    else MkResult (Normal Continue) (st (time_sleep (2 ^ attempt) (st a)))
                  (evs a ++ [EvSleep (2 ^ attempt)])
  else
    MkResult (Normal Break)
             (MkState (svc (st a)) (now (st a)) (file (st a)) (success_row (row (st a)) d))
             (evs a).
Proof.
  cbv zeta. unfold attempt_turn.
  generalize (process_pdf json_loads fuel pdf aid). intros p Ha.
  unfold try_except. rewrite (bind_normal _ _ _ _ Ha).
  rewrite accept_result_run.
  destruct (failed d); cbn [out st evs]; rewrite app_nil_r.
  - destruct (attempt =? 2).
    + unfold raise. cbn [out st evs]. rewrite app_nil_r. reflexivity.
    + unfold bind, ret. cbn [out st evs app]. rewrite app_nil_r. reflexivity.
  - reflexivity.
Qed.

Lemma process_pdf_row fuel pdf aid w :
  row (st (process_pdf json_loads fuel pdf aid w)) = row w.
Proof. apply (proj1 (process_pdf_facts json_loads fuel pdf aid)). Qed.

Lemma time_sleep_row d (w : State S) : row (st (time_sleep d w)) = row w.
Proof. reflexivity. Qed.

Lemma time_sleep_evs d (w : State S) : evs (time_sleep d w) = [EvSleep d].
Proof. reflexivity. Qed.

(** One turn of the [for] loop and what follows it. *)
Lemma for_attempt_cons fuel pdf aid attempt rest w d :
  let a := process_pdf json_loads fuel pdf aid w in
  out a = Normal d ->
  for_attempt json_loads fuel pdf aid (attempt :: rest) w =
  if failed d then
    if attempt =? 2
    then MkResult (Raised (RuntimeError (Dict.get_default "error" PNone d))) (st a) (evs a)
    else
      let r' := for_attempt json_loads fuel pdf aid rest
                            (st (time_sleep (2 ^ attempt) (st a))) in
      MkResult (out r') (st r') (evs a ++ [EvSleep (2 ^ attempt)] ++ evs r')
  else
    MkResult (Normal tt)
             (MkState (svc (st a)) (now (st a)) (file (st a)) (success_row (row (st a)) d))
             (evs a).
Proof.
  cbv zeta. intros Ha. cbn [for_attempt]. unfold bind.
  rewrite (attempt_turn_run fuel pdf aid attempt w d Ha).
  generalize (for_attempt json_loads fuel pdf aid rest).
  generalize (process_pdf json_loads fuel pdf aid w).
  intros a f.
  destruct (failed d).
  - destruct (attempt =? 2); cbn [out st evs]; [reflexivity|].
    rewrite <- app_assoc. reflexivity.
  - cbn [out st evs ret]. rewrite app_nil_r. reflexivity.
Qed.

(** The [for] loop, attempt by attempt, once the attempts have returned. *)
Lemma for_attempt_steps fuel pdf aid w d1 d2 d3 :
  let a1 := process_pdf json_loads fuel pdf aid w in
  let a2 := process_pdf json_loads fuel pdf aid (st (time_sleep (2 ^ 0) (st a1))) in
  let a3 := process_pdf json_loads fuel pdf aid (st (time_sleep (2 ^ 1) (st a2))) in
  let done (a : Result S dict) d :=
    MkState (svc (st a)) (now (st a)) (file (st a)) (success_row (row (st a)) d) in
  out a1 = Normal d1 -> out a2 = Normal d2 -> out a3 = Normal d3 ->
  for_attempt json_loads fuel pdf aid range3 w =
  if negb (failed d1) then MkResult (Normal tt) (done a1 d1) (evs a1)
  else if negb (failed d2) then
    MkResult (Normal tt) (done a2 d2) (evs a1 ++ [EvSleep 1] ++ evs a2)
  else if negb (failed d3) then
    MkResult (Normal tt) (done a3 d3) (evs a1 ++ [EvSleep 1] ++ evs a2 ++ [EvSleep 2] ++ evs a3)
  else
    MkResult (Raised (RuntimeError (Dict.get_default "error" PNone d3))) (st a3)
             (evs a1 ++ [EvSleep 1] ++ evs a2 ++ [EvSleep 2] ++ evs a3).
Proof.
  cbv zeta. change (2 ^ 0) with 1. change (2 ^ 1) with 2. intros H1 H2 H3.
  unfold range3. rewrite (for_attempt_cons fuel pdf aid 0 [1; 2] w d1 H1).
  change (0 =? 2) with false. change (2 ^ 0) with 1. cbv beta iota zeta.
  rewrite (for_attempt_cons fuel pdf aid 1 [2] _ d2 H2).
  change (1 =? 2) with false. change (2 ^ 1) with 2. cbv beta iota zeta.
  rewrite (for_attempt_cons fuel pdf aid 2 [] _ d3 H3).
  change (2 =? 2) with true. cbv beta iota zeta.
  generalize dependent (process_pdf json_loads fuel pdf aid). intros p H1 H2 H3.
  destruct (failed d1); cbn [negb]; [|reflexivity].
  destruct (failed d2); cbn [negb]; [|reflexivity].
  destruct (failed d3); cbn [negb]; reflexivity.
Qed.

(** The retry section, attempt by attempt, once the attempts have returned. *)
Lemma retry_section_steps fuel pdf aid w d1 d2 d3 :
  let a1 := process_pdf json_loads fuel pdf aid w in
  let a2 := process_pdf json_loads fuel pdf aid (st (time_sleep (2 ^ 0) (st a1))) in
  let a3 := process_pdf json_loads fuel pdf aid (st (time_sleep (2 ^ 1) (st a2))) in
  let r := retry_section json_loads fuel pdf aid w in
  out a1 = Normal d1 -> out a2 = Normal d2 -> out a3 = Normal d3 ->
  out r = Normal tt
  /\ if negb (failed d1) then
       evs r = evs a1 /\ row (st r) = success_row (row w) d1
     else if negb (failed d2) then
       evs r = (evs a1 ++ [EvSleep 1] ++ evs a2)%list
       /\ row (st r) = success_row (row w) d2
     else if negb (failed d3) then
       evs r = (evs a1 ++ [EvSleep 1] ++ evs a2 ++ [EvSleep 2] ++ evs a3)%list
       /\ row (st r) = success_row (row w) d3
     else
       evs r = (evs a1 ++ [EvSleep 1] ++ evs a2 ++ [EvSleep 2] ++ evs a3
                  ++ [EvLog ERROR ("Final failure for " ++ name pdf ++ ": "
                                     ++ py_str (Dict.get_default "error" PNone d3))])%list
       /\ row (st r) = failure_row (row w) d3.
Proof.
  cbv zeta. intros H1 H2 H3.
  pose proof (for_attempt_steps fuel pdf aid w d1 d2 d3 H1 H2 H3) as HF.
  cbv zeta in HF.
  pose proof (process_pdf_row fuel pdf aid) as R.
  unfold retry_section, try_except. rewrite HF. clear HF.
  generalize dependent (process_pdf json_loads fuel pdf aid). intros p H1 H2 H3 R.
  pose proof (R w) as R1.
  pose proof (R (st (time_sleep (2 ^ 0) (st (p w))))) as R2.
  rewrite time_sleep_row in R2.
  pose proof (R (st (time_sleep (2 ^ 1)
                       (st (p (st (time_sleep (2 ^ 0) (st (p w))))))))) as R3.
  rewrite time_sleep_row in R3.
  destruct (failed d1); cbn [negb]; [| cbn [out st evs row]; rewrite R1; auto].
  destruct (failed d2); cbn [negb]; [| cbn [out st evs row]; rewrite R2, R1; auto].
  destruct (failed d3); cbn [negb]; [| cbn [out st evs row]; rewrite R3, R2, R1; auto].
  cbn [out st evs].
  unfold row_setitem, logging. unfold bind, get_row, set_row, emit.
  cbn [out st evs row svc now file app].
  rewrite R3, R2, R1. repeat (rewrite <- app_assoc; cbn [app]).
  repeat split; reflexivity.
Qed.

Lemma retry_section_run k pdf aid w :
  let fuel := (62 + k)%nat in
  let a1 := process_pdf json_loads fuel pdf aid w in
  let a2 := process_pdf json_loads fuel pdf aid (st (time_sleep (2 ^ 0) (st a1))) in
  let a3 := process_pdf json_loads fuel pdf aid (st (time_sleep (2 ^ 1) (st a2))) in
  exists d1 d2 d3, out a1 = Normal d1 /\ out a2 = Normal d2 /\ out a3 = Normal d3.
Proof.
  intros fuel a1 a2 a3.
  destruct (process_pdf_returns json_loads k pdf aid w) as [d1 H1].
  destruct (process_pdf_returns json_loads k pdf aid (st (time_sleep (2 ^ 0) (st a1))))
    as [d2 H2].
  destruct (process_pdf_returns json_loads k pdf aid (st (time_sleep (2 ^ 1) (st a2))))
    as [d3 H3].
  exists d1, d2, d3. auto.
Qed.

(** C4. A document is attempted at most three times.  Between two
    attempts, and only there, the loop sleeps [2 ^ attempt] time-units: 1
    after the first failed attempt, 2 after the second, nothing after the
    third.  The first attempt whose result has no error stops the loop, and
    the row then holds the record and an empty [error]. *)
Theorem retry_policy (k : nat) (pdf : Path) (aid : string) (w : State S) :
  let fuel := (62 + k)%nat in
  let a1 := process_pdf json_loads fuel pdf aid w in
  let a2 := process_pdf json_loads fuel pdf aid (st (time_sleep (2 ^ 0) (st a1))) in
  let a3 := process_pdf json_loads fuel pdf aid (st (time_sleep (2 ^ 1) (st a2))) in
  let r := retry_section json_loads fuel pdf aid w in
  exists d1 d2 d3,
    out a1 = Normal d1 /\ out a2 = Normal d2 /\ out a3 = Normal d3
    /\ out r = Normal tt
    /\ (1 <= attempts_started (evs r) <= 3)%nat
    /\ if negb (failed d1) then
         evs r = evs a1 /\ row (st r) = success_row (row w) d1
       else if negb (failed d2) then
         evs r = (evs a1 ++ [EvSleep 1] ++ evs a2)%list
         /\ row (st r) = success_row (row w) d2
       else if negb (failed d3) then
         evs r = (evs a1 ++ [EvSleep 1] ++ evs a2 ++ [EvSleep 2] ++ evs a3)%list
         /\ row (st r) = success_row (row w) d3
       else
         evs r = (evs a1 ++ [EvSleep 1] ++ evs a2 ++ [EvSleep 2] ++ evs a3
                    ++ [EvLog ERROR ("Final failure for " ++ name pdf ++ ": "
                                       ++ py_str (Dict.get_default "error" PNone d3))])%list
         /\ row (st r) = failure_row (row w) d3.
Proof.
  cbv zeta.
  destruct (retry_section_run k pdf aid w) as (d1 & d2 & d3 & H1 & H2 & H3).
  exists d1, d2, d3. repeat (split; [assumption|]).
  destruct (retry_section_steps (62 + k) pdf aid w d1 d2 d3 H1 H2 H3) as [Hout Hcase].
  split; [exact Hout|].
  pose proof (process_pdf_opens json_loads (62 + k) pdf aid) as Hopen.
  split; [|exact Hcase].
  destruct (failed d1); cbn [negb] in Hcase;
    [destruct (failed d2); cbn [negb] in Hcase;
     [destruct (failed d3); cbn [negb] in Hcase|]|];
    destruct Hcase as [-> _];
    rewrite ?attempts_started_app, !Hopen; cbn; lia.
Qed.

(** C10. Whenever the result of an attempt holds the key [error], whatever
    else it holds and whatever the value (the empty string as well), the
    turn counts as failed: [RuntimeError] is raised with that value, nothing
    of the result is merged into the row, and the loop either sleeps and goes
    on (attempts 0 and 1) or lets the exception out (attempt 2). *)
Theorem error_key_fails_attempt
  (fuel : nat) (pdf : Path) (aid : string) (attempt : Z) (w : State S) (d : dict) :
  let a := process_pdf json_loads fuel pdf aid w in
  let r := attempt_turn json_loads fuel pdf aid attempt w in
  let v := Dict.get_default "error" PNone d in
  out a = Normal d ->
  Dict.contains "error" d = true ->
  Dict.get "error" d = Some v
  /\ row (st r) = row w
  /\ (attempt = 2 -> out r = Raised (RuntimeError v) /\ evs r = evs a)
  /\ (attempt <> 2 ->
      out r = Normal Continue /\ evs r = (evs a ++ [EvSleep (2 ^ attempt)])%list).
Proof.
  cbv zeta. intros Ha Herr.
  pose proof (attempt_turn_run fuel pdf aid attempt w d Ha) as Hrun. cbv zeta in Hrun.
  pose proof (process_pdf_row fuel pdf aid w) as Hrow.
  generalize dependent (attempt_turn json_loads fuel pdf aid attempt w).
  generalize dependent (process_pdf json_loads fuel pdf aid w).
  intros a Ha Hrow r Hrun.
  unfold failed in Hrun. rewrite Herr in Hrun.
  split.
  { unfold Dict.contains, Dict.get_default in *.
    destruct (Dict.get "error" d); [reflexivity | discriminate]. }
  destruct (Z.eqb_spec attempt 2) as [->|Hne]; subst r; cbn [out st evs].
  - split; [exact Hrow|]. split; [auto | intros H; contradiction].
  - rewrite time_sleep_row. split; [exact Hrow|].
    split; [intros H; contradiction | auto].
Qed.

(** *** One document *)

Lemma retry_section_not_write_row fuel pdf aid :
  emits not_write_row (retry_section json_loads fuel pdf aid).
Proof.
  pose proof (proj2 (proj2 (process_pdf_facts json_loads fuel pdf aid))) as Hp.
  unfold retry_section, range3. cbn [for_attempt].
  unfold attempt_turn, accept_result, row_setitem. comp.
Qed.

(** The row written for a document is the row the retry section leaves. *)
Lemma process_document_run fuel aid pdf w :
  let w0 := MkState (svc w) (now w) (file w) [("filename", PStr (name pdf))] in
  let rs := retry_section json_loads fuel pdf aid w0 in
  out rs = Normal tt ->
  process_document json_loads fuel aid pdf w =
  let wr := writerow (row (st rs)) (st rs) in
  MkResult (match out wr with Normal _ => Normal tt | o => o end)
           (st rs)
           (EvLog INFO ("Processing: " ++ name pdf)
              :: evs rs ++ evs wr ++ match out wr with Normal _ => [EvFlush] | _ => [] end).
Proof.
  cbv zeta. unfold process_document, logging.
  generalize (retry_section json_loads fuel pdf aid). intros p Hp.
  rewrite emit_bind. rewrite set_row_bind.
  rewrite (bind_normal _ _ _ _ Hp). cbn [out st evs].
  rewrite get_row_bind.
  unfold writerow.
  destruct (filter _ _); unfold bind, emit, raise; cbn [out st evs app]; reflexivity.
Qed.






End Retry.

(** ** The batch: [main] *)

Section Batch.

Context {S : Type} {service : Service S}.
Variable json_loads : string -> exn + dict.

#[local] Arguments process_pdf : simpl never.
#[local] Arguments time_sleep : simpl never.

Lemma dict_get_set_same k v d : Dict.get k (Dict.set k v d) = Some v.
Proof.
  induction d as [|[k' v'] d IH]; cbn.
  - rewrite String.eqb_refl. reflexivity.
  - destruct (String.eqb k k') eqn:E; cbn; rewrite E; auto.
Qed.

Lemma dict_get_set_other k k' v d :
  String.eqb k' k = false -> Dict.get k' (Dict.set k v d) = Dict.get k' d.
Proof.
  intros Hne. induction d as [|[k0 v0] d IH]; cbn.
  - rewrite Hne. reflexivity.
  - destruct (String.eqb k k0) eqn:E; cbn.
    + apply String.eqb_eq in E. subst k0. rewrite Hne. reflexivity.
    + rewrite IH. reflexivity.
Qed.

Lemma row_cells_success pdf d :
  row_cells (success_row [("filename", PStr (name pdf))] d) = success_cells pdf d.
Proof.
  unfold row_cells, success_row, success_cells, fieldnames, schema_fields, Dict.get_default.
  cbn [map app].
  rewrite dict_get_set_same.
  rewrite !dict_get_set_other by reflexivity.
  reflexivity.
Qed.

Lemma row_cells_failure pdf d :
  row_cells (failure_row [("filename", PStr (name pdf))] d)
  = failure_cells pdf (py_str (Dict.get_default "error" PNone d)).
Proof. reflexivity. Qed.

Lemma not_write_row_ok fuel l : Forall not_write_row l -> Forall (row_event_ok json_loads fuel) l.
Proof.
  induction 1 as [|e l He Hl IH]; constructor; auto.
  destruct e; cbn in *; auto; contradiction.
Qed.

(** The row of a document, when one is written, comes from an attempt. *)
Lemma process_document_rows k aid pdf :
  emits (row_event_ok json_loads (62 + k)) (process_document json_loads (62 + k) aid pdf).
Proof.
  intros w.
  destruct (retry_section_run json_loads k pdf aid
              (MkState (svc w) (now w) (file w) [("filename", PStr (name pdf))]))
    as (d1 & d2 & d3 & H1 & H2 & H3).
  destruct (retry_section_steps json_loads (62 + k) pdf aid _ d1 d2 d3 H1 H2 H3)
    as [Hout Hcase].
  rewrite (process_document_run json_loads (62 + k) aid pdf w Hout). cbv zeta.
  pose proof (retry_section_not_write_row json_loads (62 + k) pdf aid
                (MkState (svc w) (now w) (file w) [("filename", PStr (name pdf))])) as Hnw.
  apply (not_write_row_ok (62 + k)) in Hnw.
  assert (Hrow : row_of_attempt json_loads (62 + k)
                   (row_cells (row (st (retry_section json_loads (62 + k) pdf aid
                      (MkState (svc w) (now w) (file w)
                               [("filename", PStr (name pdf))])))))).
  { unfold row_of_attempt.
    destruct (failed d1) eqn:F1; cbn [negb] in Hcase.
    2:{ destruct Hcase as [_ ->]. cbn [row]. rewrite row_cells_success.
        exists aid, pdf. eexists. exists d1. split; [exact H1|]. left; auto. }
    destruct (failed d2) eqn:F2; cbn [negb] in Hcase.
    2:{ destruct Hcase as [_ ->]. cbn [row]. rewrite row_cells_success.
        exists aid, pdf. eexists. exists d2. split; [exact H2|]. left; auto. }
    destruct (failed d3) eqn:F3; cbn [negb] in Hcase.
    2:{ destruct Hcase as [_ ->]. cbn [row]. rewrite row_cells_success.
        exists aid, pdf. eexists. exists d3. split; [exact H3|]. left; auto. }
    destruct Hcase as [_ ->]. cbn [row]. rewrite row_cells_failure.
    exists aid, pdf. eexists. exists d3. split; [exact H3|]. right; auto. }
  clear Hcase H1 H2 H3 Hout.
  generalize dependent (retry_section json_loads (62 + k) pdf aid
                          (MkState (svc w) (now w) (file w)
                                   [("filename", PStr (name pdf))])).
  intros rs Hnw Hrow. cbn [evs].
  constructor; [exact I|].
  apply Forall_app; split; [exact Hnw|].
  unfold writerow. fold (row_cells (row (st rs))).
  destruct (filter _ _); cbn [emit raise out evs app]; repeat constructor; auto.
Qed.

Lemma for_pdf_rows k aid pdfs :
  emits (row_event_ok json_loads (62 + k)) (for_pdf json_loads (62 + k) aid pdfs).
Proof.
  pose proof (process_document_rows k aid) as Hd.
  induction pdfs as [|pdf rest IH]; cbn [for_pdf]; comp.
Qed.

Lemma main_rows k : emits (row_event_ok json_loads (62 + k)) (main json_loads (62 + k)).
Proof.
  pose proof (for_pdf_rows k) as Hf.
  unfold main. comp.
Qed.

Lemma table_In cells l : In cells (table l) -> In (EvWriteRow cells) l.
Proof.
  induction l as [|e l IH]; cbn [table]; [intros []|].
  destruct e; try solve [intros H; right; auto].
  intros [<-|H]; [left; reflexivity | right; auto].
Qed.

(** Whatever the items of the messages are, a row the batch writes comes
    from the result of an attempt: with its record merged in and an empty
    [error], or with empty schema columns and the text of the error. *)
Lemma written_rows_come_from_attempts
  (k : nat) (w : State S) (cells : list string) :
  In cells (table (evs (main json_loads (62 + k) w))) ->
  exists aid pdf w' d,
    out (process_pdf json_loads (62 + k) pdf aid w') = Normal d
    /\ ((failed d = false /\ cells = success_cells pdf d)
        \/ (failed d = true
            /\ cells = failure_cells pdf (py_str (Dict.get_default "error" PNone d)))).
Proof.
  intros Hin. apply table_In in Hin.
  pose proof (main_rows k w) as Hall.
  rewrite Forall_forall in Hall. apply (Hall _ Hin).
Qed.

End Batch.

(** ** The scenarios, run *)



Lemma failed_run_witness :
  out (run_attempt (run_fails [report_pdf]) 62 report_pdf)
  = Normal [("error", PStr "Processing failed with status: failed")].
Proof.
  refine (proj1 (proj2 (failed_run_is_error_descriptor
                          (service := sim_service (run_fails [report_pdf]))
                          JSON.loads 62 report_pdf "asst_1" sim_start "thread_1"
                          {| run_id := "run_1"; status := "failed" |} _ _))).
  - vm_compute. reflexivity.
  - cbn [status]. discriminate.
Defined.


Lemma error_key_witness :
  out (attempt_turn (service := sim_service (answering [report_pdf] report_json))
         JSON.loads 62 report_pdf "asst_1" 2 sim_start)
  = Raised (RuntimeError (PStr "No structured data found in response"))
  /\ row (st (attempt_turn (service := sim_service (answering [report_pdf] report_json))
                JSON.loads 62 report_pdf "asst_1" 2 sim_start)) = [].
Proof.
  pose proof (error_key_fails_attempt
                (service := sim_service (answering [report_pdf] report_json))
                JSON.loads 62 report_pdf "asst_1" 2 sim_start
                [("error", PStr "No structured data found in response")]) as H.
  cbv zeta in H.
  destruct H as (_ & Hrow & Hlast & _); try (vm_compute; reflexivity).
  split; [apply Hlast; reflexivity | exact Hrow].
Defined.

(** C9, where the code fails it. With [report.pdf] alone in the input
    directory and the record answered on the first attempt, in the text
    block the client delivers a text in: the block is no instance of
    [Text], the scan passes over it, and each of the three attempts ends
    with the error of the missing structured data.  The batch ends
    normally with the one row report.pdf, empty schema fields and that
    error, not with the row of the record. *)
Theorem report_record_is_passed_over :
  let r := run_main (answering [report_pdf] report_json) 62 in
  out r = Normal tt
  /\ attempts_started (evs r) = 3%nat
  /\ table (evs r)
     = [["report.pdf"; ""; ""; ""; ""; ""; ""; "No structured data found in response"]]
  /\ table (evs r) <> [report_row_as_printed].
Proof.
  cbv zeta. repeat split; try (vm_compute; reflexivity). vm_compute. discriminate.
Qed.

(** The same record in a [Text]: reading its attribute [text] raises, and
    the row holds the text of that [AttributeError]. *)
Lemma report_record_in_a_text :
  let r := run_main (answering_items [report_pdf] [Text report_json]) 62 in
  out r = Normal tt
  /\ attempts_started (evs r) = 3%nat
  /\ table (evs r)
     = [["report.pdf"; ""; ""; ""; ""; ""; ""; "'Text' object has no attribute 'text'"]].
Proof. cbv zeta. repeat split; vm_compute; reflexivity. Qed.

(** The test of the scan is written for an item that is a [Text] and has
    a [text] of its own.  From such an item the record is decoded at the
    first attempt, and its row shows the keywords as Python shows a list
    of strings. *)
Lemma report_record_in_a_text_with_text :
  let r := run_main (answering_items [report_pdf] [TextWithText report_json]) 62 in
  out r = Normal tt
  /\ attempts_started (evs r) = 1%nat
  /\ table (evs r)
     = [["report.pdf"; "Annual Report"; "J. Doe"; "2023-01-01"; "['finance', 'growth']";
         "..."; "12"; ""]].
Proof. cbv zeta. repeat split; vm_compute; reflexivity. Qed.

(** ** More on one attempt *)

Section AttemptEdges.

Context {S : Type} {service : Service S}.
Variable json_loads : string -> exn + dict.

#[local] Arguments process_pdf : simpl never.

Lemma process_pdf_try_upload_raised fuel pdf aid w e :
  out (upload_file pdf w) = Raised e ->
  process_pdf_try json_loads fuel pdf aid w
  = MkResult (Raised e) (st (upload_file pdf w)) (evs (upload_file pdf w)).
Proof.
  intros H. unfold process_pdf_try, run_to_terminal, submit_run.
  rewrite !bind_assoc. apply bind_raised. exact H.
Qed.

(** The events of an upload that fails: the [open], and the upload call
    when the [open] went through. *)
Lemma upload_file_raised_evs pdf w e :
  out (upload_file pdf w) = Raised e ->
  evs (upload_file pdf w) = [EvOpen pdf] \/ evs (upload_file pdf w) = [EvOpen pdf; EvUpload pdf].
Proof.
  unfold upload_file, bind, call, set_file, logging, emit, ret; cbn [out st evs].
  destruct (res (open_rb _ _ _)) as [e1|[]]; cbn [out st evs app]; auto.
  destruct (res (files_create _ _ _)) as [e2|f]; cbn [out st evs app]; auto.
  discriminate.
Qed.

(** When the document cannot be opened or uploaded, the attempt stops
    there: it calls nothing else of the service (no thread, no run, no
    deletion), logs the error and returns the error descriptor. *)
Theorem failed_upload_ends_attempt
  (fuel : nat) (pdf : Path) (aid : string) (w : State S) (e : exn) :
  out (upload_file pdf (fresh w)) = Raised e ->
  let r := process_pdf json_loads fuel pdf aid w in
  let logged := EvLog ERROR ("Error processing " ++ name pdf ++ ": " ++ str_exn e) in
  out r = Normal [("error", PStr (str_exn e))]
  /\ (evs r = [EvOpen pdf; logged] \/ evs r = [EvOpen pdf; EvUpload pdf; logged])
  /\ deletions (evs r) = [].
Proof.
  intros Hup. cbv zeta.
  pose proof (process_pdf_try_upload_raised fuel pdf aid (fresh w) e Hup) as Htry.
  pose proof (upload_file_file pdf (fresh w)) as Hfile. rewrite Hup in Hfile.
  pose proof (upload_file_raised_evs pdf (fresh w) e Hup) as Hevs.
  assert (Hg : process_pdf_guarded json_loads fuel pdf aid (fresh w)
               = MkResult (Normal [("error", PStr (str_exn e))])
                          (st (upload_file pdf (fresh w)))
                          (evs (upload_file pdf (fresh w))
                             ++ [EvLog ERROR ("Error processing " ++ name pdf ++ ": "
                                                ++ str_exn e)])).
  { unfold process_pdf_guarded.
    rewrite (try_except_raised _ _ _ e) by (rewrite Htry; reflexivity).
    rewrite Htry. reflexivity. }
  assert (Hrun : process_pdf json_loads fuel pdf aid w
                 = MkResult (Normal [("error", PStr (str_exn e))])
                            (st (upload_file pdf (fresh w)))
                            (evs (upload_file pdf (fresh w))
                               ++ [EvLog ERROR ("Error processing " ++ name pdf ++ ": "
                                                  ++ str_exn e)])).
  { rewrite process_pdf_run by (rewrite Hg; discriminate).
    cbv zeta. rewrite Hg. cbn [out st evs].
    rewrite process_pdf_finally_run. rewrite Hfile. cbn [fresh file out st evs].
    rewrite app_nil_r. reflexivity. }
  rewrite Hrun. cbn [out evs]. clear Hrun Hg Htry.
  destruct Hevs as [-> | ->]; cbn; auto.
Qed.

(** The scan of the messages, over the items of all messages in order. *)
Lemma first_payload_flat messages :
  first_payload messages = first_payload_in (flat_map content messages).
Proof.
  induction messages as [|m rest IH]; cbn [first_payload flat_map]; [reflexivity|].
  rewrite IH. clear IH.
  induction (content m) as [|item items IHi]; cbn [app first_payload_in]; [reflexivity|].
  destruct (look item); auto.
Qed.

Lemma passed_over_look item : passed_over item = true -> look item = Nothing.
Proof.
  unfold passed_over, look.
  destruct (isinstance_Text item); cbn [negb orb]; [|reflexivity].
  destruct (text_value item) as [e|value]; [discriminate|].
  destruct (startswith_brace value); [discriminate | reflexivity].
Qed.

Lemma first_payload_in_skip skipped rest :
  forallb passed_over skipped = true ->
  first_payload_in (skipped ++ rest) = first_payload_in rest.
Proof.
  induction skipped as [|item skipped IH]; cbn [forallb app first_payload_in]; auto.
  intros H. apply andb_prop in H. destruct H as [Hi Hs].
  rewrite (passed_over_look _ Hi). auto.
Qed.

(** The scan goes past every item that is no instance of [Text], the text
    blocks of the client among them, and past a [Text] whose [text.value]
    starts otherwise.  At the first other item, an instance of [Text], it
    ends: with the exception when reading [text.value] raises, as it does
    on a [Text], which has no attribute [text]; with the value as payload
    otherwise.  Nothing after that item is looked at. *)
Theorem scan_ends_at_first_text
  (messages : list Message) (skipped rest : list content_item) (item : content_item) :
  flat_map content messages = (skipped ++ item :: rest)%list ->
  forallb passed_over skipped = true ->
  passed_over item = false ->
  isinstance_Text item = true
  /\ match text_value item with
     | inl e => first_payload messages = Fault e
     | inr value => startswith_brace value = true /\ first_payload messages = Payload value
     end.
Proof.
  intros Hflat Hskip Hitem.
  rewrite first_payload_flat, Hflat, first_payload_in_skip by assumption.
  cbn [first_payload_in]. unfold passed_over in Hitem. unfold look.
  destruct (isinstance_Text item); cbn [negb orb] in Hitem; [|discriminate].
  split; [reflexivity|].
  destruct (text_value item) as [e|value]; [reflexivity|].
  destruct (startswith_brace value); [split; reflexivity | discriminate].
Qed.

Lemma first_payload_in_blocks items :
  forallb (fun item => negb (isinstance_Text item)) items = true ->
  first_payload_in items = Nothing.
Proof.
  induction items as [|item items IH]; cbn [forallb first_payload_in]; [reflexivity|].
  intros H. apply andb_prop in H. destruct H as [Hi Hs].
  unfold look. destruct (isinstance_Text item); [discriminate | auto].
Qed.

Lemma read_result_completed th run w messages :
  status run = "completed" ->
  res (messages_list (now w) th (svc w)) = inr messages ->
  out (read_result json_loads th run w)
  = match first_payload messages with
    | Payload value =>
        match json_loads value with
        | inr record => Normal record
        | inl e => Raised e
        end
    | Fault e => Raised e
    | Nothing => Raised (ValueError "No structured data found in response")
    end.
Proof.
  intros Hst Hm. unfold read_result. rewrite Hst.
  change (negb (String.eqb "completed" "completed")) with false. cbv iota.
  unfold bind, ret, call; cbn [out st evs]. rewrite Hm. cbn [out st evs].
  destruct (first_payload messages) as [value|e|]; try reflexivity.
  destruct (json_loads value); reflexivity.
Qed.

(** After a completed run whose messages hold content blocks only, as the
    messages of the client do, the attempt returns the error descriptor of
    the missing structured data, whatever the texts of the blocks are: a
    record in a text block is not looked at. *)
Theorem completed_run_of_blocks_fails
  (fuel : nat) (pdf : Path) (aid : string) (w : State S)
  (th : string) (run : Run) (messages : list Message) :
  let reached := run_to_terminal fuel pdf aid (fresh w) in
  out reached = Normal (th, run) ->
  status run = "completed" ->
  res (messages_list (now (st reached)) th (svc (st reached))) = inr messages ->
  forallb (fun item => negb (isinstance_Text item)) (flat_map content messages) = true ->
  out (process_pdf json_loads fuel pdf aid w)
  = Normal [("error", PStr "No structured data found in response")].
Proof.
  cbv zeta. intros Hrun Hst Hm Hblocks.
  rewrite process_pdf_out, process_pdf_guarded_out.
  unfold process_pdf_try. rewrite (bind_normal _ _ _ _ Hrun). cbn [out fst snd].
  rewrite (read_result_completed th run _ messages Hst Hm).
  rewrite first_payload_flat, (first_payload_in_blocks _ Hblocks). reflexivity.
Qed.

Lemma wait_run_terminal fuel th run (w : State S) :
  terminal (status run) = true ->
  wait_run (Datatypes.S fuel) th run w = MkResult (Normal run) w [].
Proof.
  intros H. unfold wait_run, bind, time_time. cbn [out st evs poll]. rewrite H.
  reflexivity.
Qed.

(** A run that is already in a terminal state when it is created is not
    polled: the attempt neither sleeps nor retrieves. *)
Theorem terminal_run_is_not_polled
  (fuel : nat) (pdf : Path) (aid : string) (w : State S) (th : string) (run : Run) :
  out (submit_run pdf aid (fresh w)) = Normal (th, run) ->
  terminal (status run) = true ->
  Forall not_poll (evs (process_pdf json_loads (Datatypes.S fuel) pdf aid w)).
Proof.
  intros Hsub Hterm.
  assert (Hup : emits not_poll (upload_file pdf)) by (unfold upload_file; comp).
  assert (Hstart : forall f, emits not_poll (start_run f aid))
    by (intros f; unfold start_run; comp).
  assert (Hread : forall t r, emits not_poll (read_result json_loads t r))
    by (intros t r; unfold read_result; comp).
  assert (Hfin : emits (S := S) not_poll process_pdf_finally)
    by (unfold process_pdf_finally; comp).
  assert (Hsubmit : emits not_poll (submit_run pdf aid)) by (unfold submit_run; comp).
  assert (Htry : Forall not_poll
                   (evs (process_pdf_try json_loads (Datatypes.S fuel) pdf aid (fresh w)))).
  { unfold process_pdf_try, run_to_terminal.
    rewrite bind_assoc. rewrite (bind_normal _ _ _ _ Hsub). cbn [evs fst snd].
    apply Forall_app; split; [apply Hsubmit|].
    rewrite bind_assoc.
    rewrite (bind_normal _ _ _ run) by (rewrite wait_run_terminal by assumption; reflexivity).
    rewrite wait_run_terminal by assumption. cbn [out st evs app].
    assert (K : emits not_poll (bind (ret (S := S) (th, run))
                                     (fun tr => read_result json_loads (fst tr) (snd tr))))
      by comp.
    apply K. }
  unfold process_pdf. rewrite set_file_bind. fold (fresh w).
  destruct (try_finally_evs (process_pdf_guarded json_loads (Datatypes.S fuel) pdf aid)
              process_pdf_finally (fresh w)) as (tail & -> & Htail).
  apply Forall_app; split.
  - unfold process_pdf_guarded.
    destruct (try_except_evs (process_pdf_try json_loads (Datatypes.S fuel) pdf aid)
                (process_pdf_except pdf) (fresh w)) as (tail' & -> & Htail').
    apply Forall_app; split; [exact Htry|].
    destruct Htail' as [-> | [e ->]]; [constructor|].
    assert (K : emits (S := S) not_poll (process_pdf_except pdf e))
      by (unfold process_pdf_except; comp).
    apply K.
  - destruct Htail as [-> | ->]; [constructor | apply Hfin].
Qed.

End AttemptEdges.

(** ** More on the batch *)

Section BatchEdges.

Context {S : Type} {service : Service S}.
Variable json_loads : string -> exn + dict.

#[local] Arguments process_pdf : simpl never.
#[local] Arguments time_sleep : simpl never.

Lemma bind_ext {A B} (m : M S A) (k k' : A -> M S B) w :
  (forall a w', k a w' = k' a w') -> bind m k w = bind m k' w.
Proof.
  intros H. unfold bind. destruct (out (m w)); auto. rewrite H. reflexivity.
Qed.

Lemma ret_bind {A B} (a : A) (k : A -> M S B) w : bind (ret a) k w = k a w.
Proof. unfold bind, ret; cbn [out st evs app]. apply result_eta. Qed.

(** [main] is its setup, the loop over the documents, its teardown. *)
Lemma main_split fuel w :
  main json_loads fuel w
  = (sp <- main_setup ;;
     for_pdf json_loads fuel (fst sp) (snd sp) ;;
     main_teardown (fst sp)) w.
Proof.
  unfold main, main_setup, main_teardown.
  rewrite bind_assoc. apply bind_ext. intros assistant w1.
  rewrite bind_assoc. apply bind_ext. intros [] w2.
  rewrite bind_assoc. apply bind_ext. intros [] w3.
  rewrite bind_assoc. apply bind_ext. intros [] w4.
  rewrite bind_assoc. apply bind_ext. intros pdf_files w5.
  rewrite bind_assoc. apply bind_ext. intros [] w6.
  rewrite ret_bind. reflexivity.
Qed.

Lemma call_bind {A B} e (op : Z -> S -> reply S A) (k : A -> M S B) w :
  bind (call e op) k w
  = let r := op (now w) (svc w) in
    let w1 := MkState (next r) (now w + Z.of_N (took r)) (file w) (row w) in
    match res r with
    | inl x => MkResult (Raised x) w1 [e]
    | inr a => MkResult (out (k a w1)) (st (k a w1)) (e :: evs (k a w1))
    end.
Proof.
  unfold bind, call; cbn [out st evs]. destruct (res (op (now w) (svc w))); reflexivity.
Qed.

Lemma main_setup_evs w a pdfs :
  out (main_setup w) = Normal (a, pdfs) ->
  evs (main_setup w)
  = ([EvAssistantCreate; EvLog INFO ("Created assistant: " ++ a);
      EvOpenOutput OUTPUT_CSV; EvWriteHeader fieldnames; EvGlob]
       ++ match pdfs with
          | [] => [EvLog WARNING "No PDF files found in input directory"]
          | _ => []
          end)%list.
Proof.
  unfold main_setup, logging.
  rewrite call_bind. cbv zeta.
  destruct (res (assistants_create _ _)) as [e|a']; cbn [out evs]; [discriminate|].
  rewrite emit_bind. cbn [out evs].
  rewrite call_bind. cbv zeta.
  destruct (res (open_output _ _ _)) as [e|[]]; cbn [out evs]; [discriminate|].
  rewrite emit_bind. cbn [out evs].
  rewrite call_bind. cbv zeta.
  destruct (res (glob_pdf _ _)) as [e|pdfs']; cbn [out evs]; [discriminate|].
  destruct pdfs' as [|p ps].
  - rewrite emit_bind. cbn [out evs ret]. intros [= <- <-]. reflexivity.
  - rewrite ret_bind. cbn [out evs ret]. intros [= <- <-]. reflexivity.
Qed.

(** When the assistant cannot be created the batch ends with that
    exception having done nothing else: no output file is opened. *)
Theorem assistant_creation_failure_is_fatal (fuel : nat) (w : State S) (e : exn) :
  res (assistants_create (now w) (svc w)) = inl e ->
  out (main json_loads fuel w) = Raised e
  /\ evs (main json_loads fuel w) = [EvAssistantCreate].
Proof.
  intros H. unfold main.
  rewrite (bind_raised _ _ _ e) by (unfold call; cbn [out]; rewrite H; reflexivity).
  cbn [out evs call]. auto.
Qed.

(** When the output file cannot be opened the batch ends with that
    exception: no header is written, no document is looked for, and the
    assistant created just before is never deleted. *)
Theorem output_open_failure_is_fatal
  (fuel : nat) (w : State S) (a : string) (e : exn) :
  let created := assistants_create (now w) (svc w) in
  res created = inr a ->
  res (open_output (now w + Z.of_N (took created)) OUTPUT_CSV (next created)) = inl e ->
  out (main json_loads fuel w) = Raised e
  /\ evs (main json_loads fuel w)
     = [EvAssistantCreate; EvLog INFO ("Created assistant: " ++ a);
        EvOpenOutput OUTPUT_CSV].
Proof.
  cbv zeta. intros Ha He. unfold main.
  rewrite (bind_normal _ _ _ a) by (unfold call; cbn [out]; rewrite Ha; reflexivity).
  cbn [out st evs call].
  unfold logging. rewrite emit_bind. cbn [out st evs].
  rewrite (bind_raised _ _ _ e) by (unfold call; cbn [out svc now]; rewrite He; reflexivity).
  cbn [out evs call app]. auto.
Qed.

Lemma main_teardown_evs a (w : State S) :
  evs (main_teardown a w)
  = (EvClose :: EvAssistantDelete a
       :: match res (assistants_delete (now w) a (svc w)) with
          | inr _ => [EvLog INFO "Processing completed. Assistant deleted."]
          | inl _ => []
          end)%list
  /\ out (main_teardown a w)
     = match res (assistants_delete (now w) a (svc w)) with
       | inr _ => Normal tt
       | inl e => Raised e
       end.
Proof.
  unfold main_teardown, bind, call, logging, emit; cbn [out st evs].
  destruct (res (assistants_delete _ _ _)) as [e|[]]; cbn [out st evs app]; auto.
Qed.

(** With no document in the input directory the batch writes the header
    and no row, logs the warning, closes the output and deletes the
    assistant: an empty directory is not an error. *)
Theorem empty_directory_writes_header_only (fuel : nat) (w : State S) (a : string) :
  out (main_setup w) = Normal (a, []) ->
  let r := main json_loads fuel w in
  let deleted := assistants_delete (now (st (main_setup w))) a (svc (st (main_setup w))) in
  table (evs r) = []
  /\ warnings (evs r) = ["No PDF files found in input directory"]
  /\ evs r = ([EvAssistantCreate; EvLog INFO ("Created assistant: " ++ a);
               EvOpenOutput OUTPUT_CSV; EvWriteHeader fieldnames; EvGlob;
               EvLog WARNING "No PDF files found in input directory";
               EvClose; EvAssistantDelete a]
                ++ match res deleted with
                   | inr _ => [EvLog INFO "Processing completed. Assistant deleted."]
                   | inl _ => []
                   end)%list
  /\ out r = match res deleted with inr _ => Normal tt | inl e => Raised e end.
Proof.
  intros Hs. cbv zeta.
  rewrite main_split. rewrite (bind_normal _ _ _ _ Hs). cbn [out st evs fst snd for_pdf].
  rewrite ret_bind.
  destruct (main_teardown_evs a (st (main_setup w))) as [Hev Hout].
  rewrite Hev, Hout. rewrite (main_setup_evs w a [] Hs).
  generalize dependent (main_setup w). intros setup _ _ _.
  destruct (res (assistants_delete _ _ _)) as [e|[]]; cbn; auto.
Qed.

(** *** The assistant of the batch *)

Lemma poll_uses_assistant a fuel th start run :
  emits (uses_assistant a) (poll fuel th start run).
Proof. revert run; induction fuel as [|fuel IH]; intros run; cbn [poll]; comp. Qed.

Lemma process_document_uses_assistant fuel a pdf :
  emits (uses_assistant a) (process_document json_loads fuel a pdf).
Proof.
  pose proof (poll_uses_assistant a) as Hp.
  unfold process_document, retry_section, range3. cbn [for_attempt].
  unfold attempt_turn, accept_result, row_setitem, writerow.
  unfold process_pdf, process_pdf_guarded, process_pdf_try, run_to_terminal, submit_run,
    upload_file, start_run, wait_run, read_result, process_pdf_except, process_pdf_finally.
  comp.
Qed.

Lemma for_pdf_uses_assistant fuel a pdfs :
  emits (uses_assistant a) (for_pdf json_loads fuel a pdfs).
Proof.
  pose proof (process_document_uses_assistant fuel a) as Hd.
  induction pdfs as [|pdf rest IH]; cbn [for_pdf]; comp.
Qed.

(** Every run of the batch is created against the assistant the batch
    created, and that assistant is the one deleted at the end. *)
Theorem batch_uses_its_assistant
  (fuel : nat) (w : State S) (a : string) (pdfs : list Path) :
  out (main_setup w) = Normal (a, pdfs) ->
  Forall (uses_assistant a) (evs (main json_loads fuel w)).
Proof.
  intros Hs. rewrite main_split. rewrite (bind_normal _ _ _ _ Hs). cbn [evs fst snd].
  apply Forall_app; split.
  - rewrite (main_setup_evs w a pdfs Hs). destruct pdfs; repeat constructor.
  - pose proof (for_pdf_uses_assistant fuel a pdfs) as Hf.
    assert (K : emits (uses_assistant a)
                  (for_pdf json_loads fuel a pdfs ;; main_teardown a))
      by (unfold main_teardown; comp).
    apply K.
Qed.

(** *** Rows are flushed *)

Lemma rows_flushed_app l1 l2 :
  rows_flushed l1 = true -> rows_flushed l2 = true -> rows_flushed (l1 ++ l2) = true.
Proof.
  induction l1 as [|e l1 IH]; cbn [app]; auto.
  destruct e; cbn [rows_flushed]; auto.
  destruct l1 as [|e' l1']; [discriminate|].
  destruct e'; try discriminate. cbn [app]. exact IH.
Qed.

Lemma rows_flushed_none l : Forall not_write_row l -> rows_flushed l = true.
Proof.
  induction 1 as [|e l He Hl IH]; cbn [rows_flushed]; auto.
  destruct e; cbn in *; auto; contradiction.
Qed.

Lemma flushes_quiet {A} (m : M S A) : emits not_write_row m -> flushes m.
Proof. intros H w. apply rows_flushed_none, H. Qed.

Lemma flushes_bind {A B} (m : M S A) (k : A -> M S B) :
  flushes m -> (forall a, flushes (k a)) -> flushes (bind m k).
Proof.
  intros Hm Hk w. destruct (bind_evs m k w) as (tail & -> & [-> | [a ->]]).
  - rewrite app_nil_r. apply Hm.
  - apply rows_flushed_app; [apply Hm | apply Hk].
Qed.

Lemma writerow_flush_flushes (r : dict) : flushes (S := S) (writerow r ;; emit EvFlush).
Proof.
  intros w. unfold writerow.
  destruct (filter _ _); unfold bind, emit, raise; cbn [out st evs app]; reflexivity.
Qed.

Lemma process_document_flushes fuel a pdf :
  flushes (process_document json_loads fuel a pdf).
Proof.
  unfold process_document.
  apply flushes_bind; [apply flushes_quiet; comp | intros _].
  apply flushes_bind; [apply flushes_quiet; comp | intros _].
  apply flushes_bind;
    [apply flushes_quiet; apply retry_section_not_write_row | intros _].
  apply flushes_bind; [apply flushes_quiet; comp | intros r].
  apply writerow_flush_flushes.
Qed.

Lemma for_pdf_flushes fuel a pdfs : flushes (for_pdf json_loads fuel a pdfs).
Proof.
  induction pdfs as [|pdf rest IH]; cbn [for_pdf].
  - apply flushes_quiet; comp.
  - apply flushes_bind; [apply process_document_flushes | intros _; exact IH].
Qed.

(** Whatever the service answers, each row the batch writes is followed at
    once by a flush of the output: no later event of the batch comes
    between a row and its flush. *)
Theorem rows_are_flushed_at_once (fuel : nat) (w : State S) :
  rows_flushed (evs (main json_loads fuel w)) = true.
Proof.
  revert w. change (flushes (main json_loads fuel)). unfold main.
  apply flushes_bind; [apply flushes_quiet; comp | intros assistant].
  apply flushes_bind; [apply flushes_quiet; comp | intros _].
  apply flushes_bind; [apply flushes_quiet; comp | intros _].
  apply flushes_bind; [apply flushes_quiet; comp | intros _].
  apply flushes_bind; [apply flushes_quiet; comp | intros pdf_files].
  apply flushes_bind; [apply flushes_quiet; comp | intros _].
  apply flushes_bind; [apply for_pdf_flushes | intros _].
  apply flushes_quiet; comp.
Qed.

(** *** One row for each document *)
















End BatchEdges.

(** ** More on polling *)

Section PollingEdges.

Context {S : Type} {service : Service S}.
Variable json_loads : string -> exn + dict.

#[local] Arguments process_pdf : simpl never.

Lemma poll_raised fuel th start run w e :
  out (poll fuel th start run w) = Raised e ->
  (exists t rid s, res (runs_retrieve t th rid s) = inl e)
  \/ (e = TimeoutError "Processing timed out"
      /\ 300 < now (st (poll fuel th start run w)) - start).
Proof.
  revert run w; induction fuel as [|fuel IH]; intros run w; cbn [poll].
  - discriminate.
  - destruct (terminal (status run)); [discriminate|].
    unfold bind; cbn.
    destruct (now w - start >? 300) eqn:E; cbn.
    + intros [= <-]. right. split; [reflexivity|].
      rewrite Z.gtb_ltb in E. apply Z.ltb_lt in E. exact E.
    + destruct (res (runs_retrieve _ _ _ _)) as [e'|run'] eqn:R; cbn.
      * intros [= <-]. left. eauto.
      * apply IH.
Qed.

(** The polling raises only what a retrieval raised, or the time-out; and
    the time-out is raised only once more than 300 time-units have passed
    since the polling began. *)
Theorem timeout_only_after_budget
  (fuel : nat) (th : string) (run : Run) (w : State S) (e : exn) :
  out (wait_run fuel th run w) = Raised e ->
  (exists t rid s, res (runs_retrieve t th rid s) = inl e)
  \/ (e = TimeoutError "Processing timed out"
      /\ 300 < now (st (wait_run fuel th run w)) - now w).
Proof.
  unfold wait_run, bind, time_time; cbn [out st evs]. apply poll_raised.
Qed.

End PollingEdges.

(** ** The batch over the messages of the client *)

Section ClientItems.

Context {S : Type} {service : Service S}.
Variable json_loads : string -> exn + dict.

#[local] Arguments process_pdf : simpl never.
#[local] Arguments time_sleep : simpl never.

Lemma client_only_schema_only : client_only -> schema_only json_loads.
Proof.
  intros Hc t th s messages value record Hm Hp _.
  rewrite first_payload_flat, (first_payload_in_blocks _ (Hc _ _ _ _ Hm)) in Hp.
  discriminate Hp.
Qed.


(** *** What the attempts open *)






(** *** A document whose attempts all fail *)



(** *** The batch *)


(** *** The text of the errors *)



Lemma raises_text_quiet {A} (m : M S A) : never_raises m -> raises_text m.
Proof. intros H w e E. exfalso. exact (H w e E). Qed.









End ClientItems.

(** ** The further scenarios, run *)

Lemma failed_upload_witness :
  evs (run_attempt (upload_rejected [report_pdf]) 62 report_pdf)
  = [EvOpen report_pdf; EvUpload report_pdf;
     EvLog ERROR "Error processing report.pdf: Connection error."]
  /\ deletions (evs (run_attempt (upload_rejected [report_pdf]) 62 report_pdf)) = [].
Proof.
  destruct (failed_upload_ends_attempt
              (service := sim_service (upload_rejected [report_pdf]))
              JSON.loads 62 report_pdf "asst_1" sim_start
              (Exn "APIConnectionError" (PStr "Connection error.")))
    as (_ & _ & Hdel); [vm_compute; reflexivity|].
  split; [vm_compute; reflexivity | exact Hdel].
Defined.

Lemma scan_witness :
  isinstance_Text (Text report_json) = true
  /\ first_payload mixed_messages
     = Fault (AttributeError "'Text' object has no attribute 'text'").
Proof.
  apply (scan_ends_at_first_text mixed_messages
           [ImageFileContentBlock "file_9"; TextContentBlock report_json]
           [TextWithText report_json] (Text report_json));
    reflexivity.
Defined.

Lemma completed_run_witness :
  out (run_attempt (completed_with_blocks [report_pdf]) 62 report_pdf)
  = Normal [("error", PStr "No structured data found in response")].
Proof.
  apply (completed_run_of_blocks_fails
           (service := sim_service (completed_with_blocks [report_pdf]))
           JSON.loads 62 report_pdf "asst_1" sim_start "thread_1"
           {| run_id := "run_1"; status := "completed" |}
           [ {| content := [ImageFileContentBlock "file_9"; TextContentBlock report_json] |} ]);
    vm_compute; reflexivity.
Defined.

Lemma terminal_run_witness :
  Forall not_poll (evs (run_attempt (completed_with_blocks [report_pdf]) 62 report_pdf)).
Proof.
  apply (terminal_run_is_not_polled
           (service := sim_service (completed_with_blocks [report_pdf]))
           JSON.loads 61 report_pdf "asst_1" sim_start "thread_1"
           {| run_id := "run_1"; status := "completed" |});
    vm_compute; reflexivity.
Defined.

Lemma assistant_creation_witness :
  evs (main (service := refusing_service false) JSON.loads 62 refusing_start)
  = [EvAssistantCreate].
Proof.
  apply (assistant_creation_failure_is_fatal (service := refusing_service false)
           JSON.loads 62 refusing_start
           (Exn "AuthenticationError" (PStr "Incorrect API key provided"))).
  reflexivity.
Defined.

Lemma output_open_witness :
  evs (main (service := refusing_service true) JSON.loads 62 refusing_start)
  = [EvAssistantCreate; EvLog INFO "Created assistant: asst_1";
     EvOpenOutput "extracted_data.csv"].
Proof.
  apply (output_open_failure_is_fatal (service := refusing_service true)
           JSON.loads 62 refusing_start "asst_1"
           (Exn "PermissionError" (PStr "[Errno 13] Permission denied")));
    reflexivity.
Defined.

Lemma empty_directory_witness :
  table (evs (run_main (answering [] "{}") 62)) = []
  /\ warnings (evs (run_main (answering [] "{}") 62))
     = ["No PDF files found in input directory"].
Proof.
  destruct (empty_directory_writes_header_only
              (service := sim_service (answering [] "{}")) JSON.loads 62 sim_start "asst_1")
    as (Ht & Hw & _); [vm_compute; reflexivity|].
  split; [exact Ht | exact Hw].
Defined.

Lemma batch_assistant_witness :
  Forall (uses_assistant "asst_1")
         (evs (run_main (answering [a_pdf; b_pdf] report_json) 62)).
Proof.
  apply (batch_uses_its_assistant
           (service := sim_service (answering [a_pdf; b_pdf] report_json))
           JSON.loads 62 sim_start "asst_1" [a_pdf; b_pdf]).
  vm_compute. reflexivity.
Defined.


Lemma timeout_witness :
  (exists t rid s,
      res (runs_retrieve (Service := sim_service (never_done [report_pdf])) t "thread_1" rid s)
      = inl (TimeoutError "Processing timed out"))
  \/ (TimeoutError "Processing timed out" = TimeoutError "Processing timed out"
      /\ 300 < now (st (wait_run (service := sim_service (never_done [report_pdf])) 62
                          "thread_1" {| run_id := "run_1"; status := "in_progress" |}
                          sim_start)) - now sim_start).
Proof.
  apply (timeout_only_after_budget (service := sim_service (never_done [report_pdf]))
           62 "thread_1" {| run_id := "run_1"; status := "in_progress" |} sim_start).
  vm_compute. reflexivity.
Defined.






